(** * Educanexo360Back: the in-process TTL cache

    A shallow embedding of the caching code of the back end:
    - [src/cache/simpleCache.ts]: the shared store, the cache middleware,
      prefix invalidation and the statistics report;
    - [src/cache/dashboardCache.ts]: the [DashboardCache] class;
    - [createCacheKey] and [getOrSetCache], the private helpers that
      [MensajeService] and [AcademicService] both carry.

    Strings are [string], JavaScript values are the inductive [jsval],
    the [Map] of [DashboardCache] is a [gmap], the shared store keeps its
    entries in insertion order, and the asynchronous helpers live in a
    small state-and-rejection monad. *)

From Stdlib Require Import ZArith Ascii String List Bool Lia.
From Stdlib Require Import Floats.PrimFloat Numbers.Cyclic.Int63.Uint63.
From stdpp Require Import base option list strings gmap fin_maps.

Local Open Scope Z_scope.

(** ** JavaScript values and truthiness *)

Module Js.

(** The payloads the cache stores are opaque to it; the only thing the code
    ever asks of one is whether it is truthy ([if (cached)], [&& data]).
    Objects and arrays are always truthy, so one constructor, carrying the
    serialised payload, stands for both. *)
Inductive jsval : Type :=
  | JUndefined
  | JNull
  | JBool (b : bool)
  | JNum (n : Z)
  | JStr (s : string)
  | JObj (payload : string).

(** [ToBoolean] on the values above. *)
Definition truthy (v : jsval) : bool :=
  match v with
  | JUndefined => false
  | JNull => false
  | JBool b => b
  | JNum n => negb (n =? 0)
  | JStr s => negb (String.eqb s "")
  | JObj _ => true
  end.

#[global] Instance jsval_eq_dec : EqDecision jsval.
Proof. solve_decision. Defined.




End Js.
Export Js.

(** ** Strings: [join], [split], [startsWith] *)

Module Str.

(** The delimiter of every cache key. *)
Definition underscore : ascii := "_"%char.

(** [params.join('_')]. *)
Definition join (sep : string) (parts : list string) : string :=
  String.concat sep parts.

(** [s.split('_')]: the segments between the delimiters; never empty. *)
Fixpoint split (c : ascii) (s : string) : list string :=
  match s with
  | EmptyString => [EmptyString]
  | String a rest =>
      if Ascii.eqb a c then EmptyString :: split c rest
      else match split c rest with
           | [] => [String a EmptyString]
           | seg :: segs => String a seg :: segs
           end
  end.

(** [key.split('_')[0]]. *)
Definition first_segment (key : string) : string :=
  hd EmptyString (split underscore key).

(** [key.startsWith(pattern)]. *)
Fixpoint startsWith (pattern key : string) : bool :=
  match pattern, key with
  | EmptyString, _ => true
  | String _ _, EmptyString => false
  | String a p, String b k => Ascii.eqb a b && startsWith p k
  end.

(** No occurrence of the character in the string. *)
Fixpoint free_of (c : ascii) (s : string) : bool :=
  match s with
  | EmptyString => true
  | String a rest => negb (Ascii.eqb a c) && free_of c rest
  end.

End Str.
Export Str.

(** ** Cache keys *)

(** [createCacheKey(type, ...params)] of [MensajeService]
    (mensaje.service.ts, lines 18-20) and of [AcademicService]
    (dashboard.service.ts, lines 473-475): [`${type}_${params.join('_')}`]. *)
Definition createCacheKey (type : string) (params : list string) : string :=
  type +:+ "_" +:+ join "_" params.

(** ** The shared store ([cache] of simpleCache.ts) *)

Module NodeCache.

(** The options of [new NodeCache({...})], simpleCache.ts lines 4-9. *)
Record options : Type := {
  stdTTL : Z;
  checkperiod : Z;
  useClones : bool;
  maxKeys : nat
}.

Definition cache_options : options :=
  {| stdTTL := 300; checkperiod := 60; useClones := false; maxKeys := 500 |}.

Record entry : Type := {
  value : jsval;
  storedAt : Z;
  ttlSeconds : Z
}.

(** Entries are kept oldest first; [hits] and [misses] are the cumulative
    counters of the store. *)
Record store : Type := {
  opts : options;
  entries : list (string * entry);
  hits : N;
  misses : N
}.

Definition create (o : options) : store :=
  {| opts := o; entries := []; hits := 0; misses := 0 |}.

Definition with_entries (es : list (string * entry)) (s : store) : store :=
  {| opts := opts s; entries := es; hits := hits s; misses := misses s |}.

Definition count_hit (s : store) : store :=
  {| opts := opts s; entries := entries s;
     hits := N.succ (hits s); misses := misses s |}.

Definition count_miss (s : store) : store :=
  {| opts := opts s; entries := entries s;
     hits := hits s; misses := N.succ (misses s) |}.

Fixpoint find_entry (key : string) (es : list (string * entry)) : option entry :=
  match es with
  | [] => None
  | (k, e) :: rest => if String.eqb k key then Some e else find_entry key rest
  end.

Definition remove_entry (key : string) (es : list (string * entry))
  : list (string * entry) :=
  List.filter (fun ke => negb (String.eqb (fst ke) key)) es.

(** Modelled from the spec: the expiry test of the store, which belongs to the
    node-cache package and is not among the sources. Section 4.1: an entry is
    expired when [now - storedAt > ttlSeconds], strictly. *)
Definition expired (now : Z) (e : entry) : bool :=
  ttlSeconds e <? now - storedAt e.

(** Modelled from the spec: [cache.get(key)] of the node-cache package, which
    is not among the sources. Section 4.1: the value if present and not
    expired; an expired entry behaves as absent and is discarded; every
    lookup is counted as a hit or as a miss. *)
Definition get (now : Z) (key : string) (s : store) : option jsval * store :=
  match find_entry key (entries s) with
  | None => (None, count_miss s)
  | Some e =>
      if expired now e
      then (None, count_miss (with_entries (remove_entry key (entries s)) s))
      else (Some (value e), count_hit s)
  end.

(** Modelled from the spec: [cache.set(key, value, ttl)] of the node-cache
    package, which is not among the sources. Section 4.1: inserts or
    replaces; when the key is new and the insertion would exceed the
    capacity, the least recently inserted entry is evicted first. *)
Definition set (now : Z) (key : string) (v : jsval) (ttl : Z) (s : store) : store :=
  let es := entries s in
  let base :=
    match find_entry key es with
    | Some _ => remove_entry key es
    | None => if (maxKeys (opts s) <=? length es)%nat then tl es else es
    end in
  with_entries (base ++ [(key, {| value := v; storedAt := now; ttlSeconds := ttl |})]) s.

(** Modelled from the spec: [cache.del(key)] of the node-cache package, which
    is not among the sources. Section 4.1: removes the entry if present. *)
Definition del (key : string) (s : store) : store :=
  with_entries (remove_entry key (entries s)) s.

(** Modelled from the spec: [cache.keys()] of the node-cache package, which is
    not among the sources. Section 4.1: a snapshot of the names of the
    entries that have not expired. *)
Definition keys (now : Z) (s : store) : list string :=
  map fst (List.filter (fun ke => negb (expired now (snd ke))) (entries s)).

(** Modelled from the spec: [cache.flushAll()] of the node-cache package, which
    is not among the sources. Section 4.1: removes everything. *)
Definition flushAll (s : store) : store := with_entries [] s.

(** What a lookup would return, without touching the store. *)
Definition peek (now : Z) (key : string) (s : store) : option jsval :=
  match find_entry key (entries s) with
  | Some e => if expired now e then None else Some (value e)
  | None => None
  end.

End NodeCache.

(** ** Per-type policies ([cacheConfig]) *)

Record CacheConfig : Type := { ttl : Z; desc : string }.

Definition cacheConfig : list (string * CacheConfig) :=
  [ ("dashboard", {| ttl := 180; desc := "Dashboard - 3 min" |});
    ("mensajes", {| ttl := 120; desc := "Lista mensajes - 2 min" |});
    ("anuncios", {| ttl := 300; desc := "Anuncios - 5 min" |});
    ("notificaciones", {| ttl := 60; desc := "Notificaciones - 1 min" |});
    ("calificaciones", {| ttl := 240; desc := "Calificaciones - 4 min" |});
    ("cursos", {| ttl := 600; desc := "Lista cursos - 10 min" |});
    ("usuarios", {| ttl := 900; desc := "Lista usuarios - 15 min" |});
    ("dashboard_rol", {| ttl := 300; desc := "Resumen por rol - 5 min" |});
    ("dashboard_completo", {| ttl := 180; desc := "Dashboard completo - 3 min" |});
    ("eventos_hoy", {| ttl := 600; desc := "Eventos del día - 10 min" |});
    ("metricas_avanzadas", {| ttl := 900; desc := "Métricas avanzadas - 15 min" |});
    ("promedio_periodo", {| ttl := 300; desc := "Promedio periodo - 5 min" |});
    ("promedio_asignatura", {| ttl := 600; desc := "Promedio asignatura - 10 min" |});
    ("estadisticas_grupo", {| ttl := 180; desc := "Estadísticas grupo - 3 min" |});
    ("destinatarios", {| ttl := 120; desc := "Posibles destinatarios - 2 min" |});
    ("cursos_destinatarios", {| ttl := 600; desc := "Cursos para mensajes - 10 min" |});
    ("acudientes", {| ttl := 300; desc := "Acudientes estudiante - 5 min" |});
    ("lista_mensajes", {| ttl := 120; desc := "Lista mensajes - 2 min" |});
    ("asistencia", {| ttl := 240; desc := "Asistencia - 4 min" |});
    ("escuela", {| ttl := 1800; desc := "Info escuela - 30 min" |});
    ("logros", {| ttl := 900; desc := "Logros - 15 min" |}) ].

(** [cacheConfig[cacheType]]. *)
Fixpoint config_lookup (cacheType : string) (table : list (string * CacheConfig))
  : option CacheConfig :=
  match table with
  | [] => None
  | (name, c) :: rest =>
      if String.eqb name cacheType then Some c else config_lookup cacheType rest
  end.

Definition default_config : CacheConfig := {| ttl := 300; desc := "Default" |}.

(** [cacheConfig[cacheType] || { ttl: 300, desc: 'Default' }]. *)
Definition config_for (cacheType : string) : CacheConfig :=
  default default_config (config_lookup cacheType cacheConfig).

(** [Object.keys(cacheConfig)]. *)
Definition cacheConfig_keys : list string := map fst cacheConfig.

(** ** Asynchronous code: state passing with rejection *)

Module Async.

(** What a promise settles to. A rejection carries the thrown value. *)
Inductive outcome (A : Type) : Type :=
  | Resolved (a : A)
  | Rejected (reason : jsval).
Arguments Resolved {A} a.
Arguments Rejected {A} reason.

(** An asynchronous computation over a state [S]: it runs to a settled
    outcome and leaves a state behind. *)
Definition t (S A : Type) : Type := S → outcome A * S.

Definition ret {S A} (a : A) : t S A := fun st => (Resolved a, st).

(** [await]: a rejection of the first computation skips the rest. *)
Definition bind {S A B} (m : t S A) (k : A → t S B) : t S B :=
  fun st =>
    match m st with
    | (Resolved a, st') => k a st'
    | (Rejected r, st') => (Rejected r, st')
    end.

End Async.

#[global] Instance async_ret {S} : MRet (Async.t S) := fun A => @Async.ret S A.
#[global] Instance async_bind {S} : MBind (Async.t S) :=
  fun A B k m => Async.bind m k.

(** ** The read-through helper ([getOrSetCache]) *)

Section ReadThrough.

(** Everything outside the cache that a fetch function can read or change
    (the database, above all), together with the current-time source. *)
Context {W : Type}.
Variable clock : W → Z.

Record runtime : Type := { cache : NodeCache.store; world : W }.

(** A [fetchFunction: () => Promise<T>]: it runs against the world and
    settles; it does not touch the cache. *)
Definition fetcher : Type := W → Async.outcome jsval * W.

Definition cache_get (key : string) : Async.t runtime jsval :=
  fun rt =>
    let '(found, c) := NodeCache.get (clock (world rt)) key (cache rt) in
    (Async.Resolved (default JUndefined found), {| cache := c; world := world rt |}).

Definition cache_set (key : string) (v : jsval) (ttl : Z) : Async.t runtime unit :=
  fun rt =>
    (Async.Resolved tt,
     {| cache := NodeCache.set (clock (world rt)) key v ttl (cache rt);
        world := world rt |}).

Definition await (fetchFunction : fetcher) : Async.t runtime jsval :=
  fun rt =>
    let '(o, w) := fetchFunction (world rt) in
    (o, {| cache := cache rt; world := w |}).

(** [getOrSetCache(cacheKey, ttl, fetchFunction)], the same text in
    mensaje.service.ts (lines 23-39) and in dashboard.service.ts
    (lines 478-496, class [AcademicService]). *)
Definition getOrSetCache (cacheKey : string) (ttl : Z) (fetchFunction : fetcher)
  : Async.t runtime jsval :=
  cached ← cache_get cacheKey;
  if truthy cached then mret cached
  else
    result ← await fetchFunction;
    cache_set cacheKey result ttl;;
    mret result.

End ReadThrough.

Arguments runtime W : clear implicits.
Arguments fetcher W : clear implicits.

(** ** The cache middleware ([cacheMiddleware]) *)

Record User : Type := { _id : string; escuelaId : string; tipo : string }.

(** [query] is [JSON.stringify(req.query)]. *)
Record AuthenticatedRequest : Type := {
  method : string;
  user : option User;
  query : string
}.

(** What the middleware does with a request. *)
Inductive handling : Type :=
  | PassThrough
      (** not a GET: [next()], the response untouched *)
  | ServedFromCache (cached : jsval)
      (** [res.json(cached)], the handler never runs *)
  | Intercepted (cacheKey : string) (ttl : Z).
      (** [res.json] wrapped to store what the handler sends, then [next()] *)

Definition middleware_key (cacheType : string) (req : AuthenticatedRequest) : string :=
  let userKey :=
    match user req with
    | Some u => _id u +:+ "_" +:+ escuelaId u
    | None => "public"
    end in
  cacheType +:+ "_" +:+ userKey +:+ "_" +:+ query req.

Definition cacheMiddleware (cacheType : string) (now : Z)
    (req : AuthenticatedRequest) (c : NodeCache.store) : handling * NodeCache.store :=
  let config := config_for cacheType in
  if negb (String.eqb (method req) "GET") then (PassThrough, c)
  else
    let cacheKey := middleware_key cacheType req in
    let '(found, c') := NodeCache.get now cacheKey c in
    let cached := default JUndefined found in
    if truthy cached then (ServedFromCache cached, c')
    else (Intercepted cacheKey (ttl config), c').


(** ** Invalidation ([invalidateCache], [invalidateRelatedCache]) *)

Definition invalidation_pattern (cacheType userId escuelaId : string) : string :=
  let userKey := userId +:+ "_" +:+ escuelaId in
  cacheType +:+ "_" +:+ userKey.

Definition invalidateCache (now : Z) (cacheType userId escuelaId : string)
    (c : NodeCache.store) : NodeCache.store :=
  let pattern := invalidation_pattern cacheType userId escuelaId in
  let keys := List.filter (startsWith pattern) (NodeCache.keys now c) in
  fold_left (fun c' key => NodeCache.del key c') keys c.

Definition invalidateRelatedCache (now : Z) (primaryType userId escuelaId : string)
    (relatedTypes : list string) (c : NodeCache.store) : NodeCache.store :=
  let typesToInvalidate := primaryType :: relatedTypes in
  fold_left (fun c' cacheType => invalidateCache now cacheType userId escuelaId c')
            typesToInvalidate c.

(** ** Statistics ([getCacheStats]) *)

(** JavaScript numbers are IEEE 754 doubles; a counter becomes one. *)
Definition number_of_N (n : N) : float := of_uint63 (Uint63.of_Z (Z.of_N n)).

(** [(hits / (hits + misses)) * 100]. *)
Definition hitRate_of (hits misses : float) : float :=
  ((hits / (hits + misses)) * number_of_N 100)%float.

(** [typeStats] is a plain object, [{}]: besides the properties written to
    it, it answers for the members of [Object.prototype]. They are listed
    with the text their conversion to a string gives in Node. *)
Definition object_prototype : list (string * string) :=
  [ ("constructor", "function Object() { [native code] }");
    ("__defineGetter__", "function __defineGetter__() { [native code] }");
    ("__defineSetter__", "function __defineSetter__() { [native code] }");
    ("hasOwnProperty", "function hasOwnProperty() { [native code] }");
    ("__lookupGetter__", "function __lookupGetter__() { [native code] }");
    ("__lookupSetter__", "function __lookupSetter__() { [native code] }");
    ("isPrototypeOf", "function isPrototypeOf() { [native code] }");
    ("propertyIsEnumerable", "function propertyIsEnumerable() { [native code] }");
    ("toString", "function toString() { [native code] }");
    ("valueOf", "function valueOf() { [native code] }");
    ("__proto__", "[object Object]");
    ("toLocaleString", "function toLocaleString() { [native code] }") ].

Fixpoint inherited_text_in (members : list (string * string)) (name : string)
  : option string :=
  match members with
  | [] => None
  | (member, text) :: rest =>
      if String.eqb member name then Some text else inherited_text_in rest name
  end.

Definition inherited_text (name : string) : option string :=
  inherited_text_in object_prototype name.

(** What a property of [typeStats] can hold: a number, a string, or an
    inherited function or object, kept as the text it converts to. *)
Inductive property : Type :=
  | Num (n : nat)
  | Str (s : string)
  | Member (text : string).

(** [typeStats[name]]: the own property, else the inherited member, else
    [undefined] ([None]). *)
Definition js_get (object : gmap string property) (name : string) : option property :=
  match object !! name with
  | Some v => Some v
  | None => Member <$> inherited_text name
  end.

(** [value || 0]: [undefined], [0] and the empty string are falsy. *)
Definition or_zero (value : option property) : property :=
  match value with
  | None => Num 0
  | Some (Num n) => Num n
  | Some (Str s) => if String.eqb s EmptyString then Num 0 else Str s
  | Some (Member text) => Member text
  end.

(** [value + 1]: a number is incremented, anything else is converted to a
    string and gets the character 1 appended. *)
Definition plus_one (value : property) : property :=
  match value with
  | Num n => Num (n + 1)
  | Str s => Str (s +:+ "1")
  | Member text => Str (text +:+ "1")
  end.

(** [typeStats[name] = value] for a number or a string: the setter of
    [__proto__] ignores such a value, any other name becomes an own
    property. *)
Definition js_set (object : gmap string property) (name : string) (value : property)
  : gmap string property :=
  if String.eqb name "__proto__" then object else <[name := value]> object.

Record CacheStats : Type := {
  keys : nat;
  hits : N;
  misses : N;
  hitRate : float;
  typeBreakdown : gmap string property;
  configuredTypes : list string
}.

(** The body of the [forEach] over [allKeys]:
    [typeStats[type] = (typeStats[type] || 0) + 1] with
    [type = key.split('_')[0]]. *)
Definition count_key (typeStats : gmap string property) (key : string)
  : gmap string property :=
  let type := first_segment key in
  js_set typeStats type (plus_one (or_zero (js_get typeStats type))).

Definition getCacheStats (now : Z) (c : NodeCache.store) : CacheStats :=
  let allKeys := NodeCache.keys now c in
  let typeStats := fold_left count_key allKeys ∅ in
  {| keys := length allKeys;
     hits := NodeCache.hits c;
     misses := NodeCache.misses c;
     hitRate := hitRate_of (number_of_N (NodeCache.hits c))
                           (number_of_N (NodeCache.misses c));
     typeBreakdown := typeStats;
     configuredTypes := cacheConfig_keys |}.

(** ** [DashboardCache] *)

Module DashboardCache.

(** A value of the [Map]: [{ data, timestamp, ttl }]; [timestamp] is in
    milliseconds ([Date.now()]), [ttl] in seconds. *)
Record item : Type := { data : jsval; timestamp : Z; ttl : Z }.

Definition get (now : Z) (key : string) (cache : gmap string item)
  : jsval * gmap string item :=
  match cache !! key with
  | None => (JNull, cache)
  | Some it =>
      if now - timestamp it >? ttl it * 1000
      then (JNull, delete key cache)
      else (data it, cache)
  end.

Definition set (now : Z) (key : string) (d : jsval) (ttlSeconds : Z)
    (cache : gmap string item) : gmap string item :=
  <[key := {| data := d; timestamp := now; ttl := ttlSeconds |}]> cache.

Definition clear (cache : gmap string item) : gmap string item := ∅.

End DashboardCache.

(** ** Vocabulary of the statements *)

(** The segments of a key: the type, then the params; with no params at all,
    the type and one empty segment. *)
Definition key_segments (type : string) (params : list string) : list string :=
  type :: match params with [] => [EmptyString] | _ => params end.

(** The key starts with the pattern of the type for this user and school. *)
Definition in_scope (userId escuelaId cacheType key : string) : bool :=
  startsWith (createCacheKey cacheType [userId; escuelaId]) key.

(** The key starts with the pattern of one of the types. *)
Definition in_scope_of (userId escuelaId : string) (types : list string)
    (key : string) : bool :=
  existsb (fun cacheType => in_scope userId escuelaId cacheType key) types.

(** What the store hands back, as the JavaScript value the caller tests. *)
Definition looked_up (now : Z) (key : string) (c : NodeCache.store) : jsval :=
  default JUndefined (fst (NodeCache.get now key c)).

(** One [cache.set(key, value, ttl)] made at a given time. *)
Record set_call : Type := {
  at_time : Z;
  set_key : string;
  set_value : jsval;
  set_ttl : Z
}.

Definition run_sets (calls : list set_call) (c : NodeCache.store) : NodeCache.store :=
  fold_left
    (fun c' call =>
       NodeCache.set (at_time call) (set_key call) (set_value call) (set_ttl call) c')
    calls c.

(** *** Inputs of the examples *)

(** [JSON.stringify({ q: 'x' })]; the quotation mark is character 34. *)
Definition query_q_x : string :=
  let quoted s := String (ascii_of_nat 34) (s +:+ String (ascii_of_nat 34) EmptyString) in
  "{" +:+ quoted "q" +:+ ":" +:+ quoted "x" +:+ "}".

(** A fetch function that always fails, and counts how often it ran. *)
Definition failing_fetch : fetcher nat :=
  fun calls => (Async.Rejected (JStr "database down"), S calls).

(** A fetch function that resolves to the number it counted. *)
Definition counting_fetch : fetcher nat :=
  fun calls => (Async.Resolved (JNum (Z.of_nat calls)), S calls).

(** ** The rest of the cache code *)

(** [key.includes(pattern)]. *)
Fixpoint includes (pattern key : string) : bool :=
  startsWith pattern key
  || match key with
     | EmptyString => false
     | String _ rest => includes pattern rest
     end.

(** [keysToDelete.forEach((key) => cache.del(key))]. *)
Definition del_keys (keysToDelete : list string) (c : NodeCache.store)
  : NodeCache.store :=
  fold_left (fun c' key => NodeCache.del key c') keysToDelete c.

(** *** simpleCache.ts, the remaining exports *)

Definition dashboardTypes : list string :=
  ["dashboard"; "dashboard_rol"; "dashboard_completo"; "eventos_hoy";
   "metricas_avanzadas"].

(** [invalidateDashboardCache(userId, escuelaId)], lines 133-147. *)
Definition invalidateDashboardCache (now : Z) (userId escuelaId : string)
    (c : NodeCache.store) : NodeCache.store :=
  fold_left (fun c' type => invalidateCache now type userId escuelaId c')
            dashboardTypes c.

(** [clearExpiredCache()], lines 172-177: it calls [cache.flushAll()]. *)
Definition clearExpiredCache (c : NodeCache.store) : NodeCache.store :=
  NodeCache.flushAll c.

(** *** dashboardCache.ts, the remaining methods *)

Module DashboardCachePurge.
Import DashboardCache.

(** [invalidate(pattern)]: the loop over [this.cache.keys()]. *)
Definition invalidate (pattern : string) (cache : gmap string item)
  : gmap string item :=
  fold_left
    (fun acc key => if includes pattern key then delete key acc else acc)
    (map fst (map_to_list cache)) cache.

(** [invalidateUserDashboard(userId, escuelaId)]: each of the two strings is
    handed to [this.cache.delete]. *)
Definition invalidateUserDashboard (userId escuelaId : string)
    (cache : gmap string item) : gmap string item :=
  let patterns :=
    [ "dashboard_stats_" +:+ userId +:+ "_" +:+ escuelaId;
      "dashboard_optimized_" +:+ userId +:+ "_" +:+ escuelaId ] in
  fold_left (fun acc pattern => delete pattern acc) patterns cache.

End DashboardCachePurge.

(** *** mensaje.service.ts *)

Module MensajeService.

(** The keys the methods build: [getPosiblesDestinatarios],
    [getCursosPosiblesDestinatarios], [enviarCopiaAcudientes] and
    [obtenerMensajes]; [filtros] is [JSON.stringify(filtros)]. *)
Definition destinatarios_key (userId escuelaId query : string) : string :=
  createCacheKey "destinatarios" [userId; escuelaId; query].

Definition cursos_destinatarios_key (userId escuelaId : string) : string :=
  createCacheKey "cursos_destinatarios" [userId; escuelaId].

Definition acudientes_key (estudianteId : string) : string :=
  createCacheKey "acudientes" [estudianteId].

Definition lista_mensajes_key (userId filtros : string) : string :=
  createCacheKey "lista_mensajes" [userId; filtros].

(** [invalidarCacheMensajes(usuarioId, escuelaId)], lines 617-628. *)
Definition invalidarCacheMensajes (now : Z) (usuarioId escuelaId : string)
    (c : NodeCache.store) : NodeCache.store :=
  invalidateRelatedCache now "mensajes" usuarioId escuelaId
    ["destinatarios"; "cursos_destinatarios"; "acudientes"; "dashboard";
     "dashboard_completo"] c.

End MensajeService.

(** *** dashboard.service.ts, class [AcademicService] *)

Module AcademicService.

(** The keys of [calcularPromedioPeriodo], [calcularPromedioAsignatura] and
    [obtenerEstadisticasGrupo]; [periodo] is [periodo.toString()]. *)
Definition promedio_periodo_key (estudianteId asignaturaId periodo anio : string)
  : string :=
  createCacheKey "promedio_periodo" [estudianteId; asignaturaId; periodo; anio].

Definition promedio_asignatura_key (estudianteId asignaturaId anio : string)
  : string :=
  createCacheKey "promedio_asignatura" [estudianteId; asignaturaId; anio].

Definition estadisticas_grupo_key (cursoId asignaturaId periodo anio : string)
  : string :=
  createCacheKey "estadisticas_grupo" [cursoId; asignaturaId; periodo; anio].

Definition tiposRelacionados : list string :=
  ["promedio_periodo"; "promedio_asignatura"; "estadisticas_grupo"; "dashboard";
   "dashboard_rol"; "dashboard_completo"].

(** An optional string argument as the value [if (escuelaId)] tests. *)
Definition optional (arg : option string) : jsval :=
  match arg with Some s => JStr s | None => JUndefined end.

(** [invalidarCacheEstudiante(estudianteId, asignaturaId?, escuelaId?)],
    lines 1180-1209. [asignaturaId] is not used by the body. *)
Definition invalidarCacheEstudiante (now : Z) (estudianteId : string)
    (asignaturaId escuelaId : option string) (c : NodeCache.store)
  : NodeCache.store :=
  if truthy (optional escuelaId) then
    fold_left
      (fun c' tipo => invalidateCache now tipo estudianteId (default "" escuelaId) c')
      tiposRelacionados c
  else
    let allKeys := NodeCache.keys now c in
    fold_left
      (fun c' tipo =>
         let keysToDelete :=
           List.filter (fun key => includes tipo key && includes estudianteId key)
                       allKeys in
         del_keys keysToDelete c')
      tiposRelacionados c.

(** [invalidarCacheCurso(cursoId, escuelaId?)], lines 1212-1225.
    [escuelaId] is not used by the body. *)
Definition invalidarCacheCurso (now : Z) (cursoId : string)
    (escuelaId : option string) (c : NodeCache.store) : NodeCache.store :=
  let allKeys := NodeCache.keys now c in
  let keysToDelete :=
    List.filter
      (fun key =>
         (includes "estadisticas_grupo" key || includes "dashboard" key)
         && includes cursoId key)
      allKeys in
  del_keys keysToDelete c.

Definition tiposAcademicos : list string :=
  ["promedio_periodo"; "promedio_asignatura"; "estadisticas_grupo"].

(** [limpiarCacheAcademico()], lines 1228-1238. *)
Definition limpiarCacheAcademico (now : Z) (c : NodeCache.store) : NodeCache.store :=
  let allKeys := NodeCache.keys now c in
  fold_left
    (fun c' tipo =>
       let keysToDelete := List.filter (fun key => includes tipo key) allKeys in
       del_keys keysToDelete c')
    tiposAcademicos c.

End AcademicService.

(** *** academic.cache.helper.ts *)

Module AcademicCacheHelper.
Import AcademicService.

(** [invalidateOnCalificacionChange], lines 13-33. *)
Definition invalidateOnCalificacionChange (now : Z)
    (estudianteId asignaturaId cursoId escuelaId : string) (c : NodeCache.store)
  : NodeCache.store :=
  let c1 := invalidarCacheEstudiante now estudianteId (Some asignaturaId)
              (Some escuelaId) c in
  let c2 := invalidarCacheCurso now cursoId (Some escuelaId) c1 in
  invalidateRelatedCache now "dashboard" estudianteId escuelaId
    ["dashboard_rol"; "dashboard_completo"; "metricas_avanzadas"] c2.

(** [invalidateOnLogroChange], lines 38-52. *)
Definition invalidateOnLogroChange (now : Z) (asignaturaId cursoId escuelaId : string)
    (c : NodeCache.store) : NodeCache.store :=
  limpiarCacheAcademico now (invalidarCacheCurso now cursoId (Some escuelaId) c).

(** [invalidateOnCursoChange], lines 57-64. *)
Definition invalidateOnCursoChange (now : Z) (cursoId escuelaId : string)
    (c : NodeCache.store) : NodeCache.store :=
  invalidateRelatedCache now "dashboard" "all" escuelaId
    ["dashboard_rol"; "dashboard_completo"]
    (invalidarCacheCurso now cursoId (Some escuelaId) c).

(** [invalidateOnPeriodoClose], lines 69-81. *)
Definition invalidateOnPeriodoClose (now : Z) (escuelaId : string)
    (c : NodeCache.store) : NodeCache.store :=
  invalidateRelatedCache now "dashboard" "all" escuelaId
    ["dashboard_rol"; "dashboard_completo"; "metricas_avanzadas"]
    (limpiarCacheAcademico now c).

End AcademicCacheHelper.

(** *** dashboardCacheInvalidation.middleware.ts *)

Module DashboardCacheInvalidation.

Definition adminTypes : list string := ["ADMIN"; "RECTOR"; "COORDINADOR"].

(** The replacement of [res.json] that the middleware
    [invalidateDashboardCache()] installs, as far as the cache goes;
    [success] is [data.success]. *)
Definition invalidating_json (now : Z) (user : option User) (success : jsval)
    (c : NodeCache.store) : NodeCache.store :=
  match user with
  | Some u =>
      if truthy success then
        let c1 := invalidateCache now "dashboard" (_id u) (escuelaId u) c in
        if existsb (String.eqb (tipo u)) adminTypes then
          invalidateCache now "notificaciones" (_id u) (escuelaId u)
            (invalidateCache now "mensajes" (_id u) (escuelaId u) c1)
        else c1
      else c
  | None => c
  end.

End DashboardCacheInvalidation.

(** *** dashboard.controller.ts *)

(** [invalidarCacheDashboard(usuarioId, escuelaId)], lines 224-227. *)
Definition invalidarCacheDashboard (now : Z) (usuarioId escuelaId : string)
    (c : NodeCache.store) : NodeCache.store :=
  invalidateCache now "dashboard" usuarioId escuelaId c.

(** *** Vocabulary of the further statements *)

(** The keys [invalidarCacheEstudiante] picks when no school is given. *)
Definition names_student (estudianteId key : string) : bool :=
  existsb (fun tipo => includes tipo key && includes estudianteId key)
          AcademicService.tiposRelacionados.

(** The keys [limpiarCacheAcademico] picks. *)
Definition names_academic (key : string) : bool :=
  existsb (fun tipo => includes tipo key) AcademicService.tiposAcademicos.

(** The keys [invalidarCacheCurso] picks. *)
Definition names_course (cursoId key : string) : bool :=
  (includes "estadisticas_grupo" key || includes "dashboard" key)
  && includes cursoId key.

(** How many of the keys the report files under a type. *)
Definition filed_under (type : string) (allKeys : list string) : nat :=
  length (List.filter (fun key => String.eqb (first_segment key) type) allKeys).

(** Counting keys by their first segment, with numbers alone. *)
Definition tally_key (counts : gmap string nat) (key : string) : gmap string nat :=
  let type := first_segment key in
  <[type := (default 0 (counts !! type) + 1)%nat]> counts.

Definition tally_total (counts : gmap string nat) : nat :=
  map_fold (fun _ count total => (count + total)%nat) 0%nat counts.

(** The number a property of the breakdown holds, a string holding none. *)
Definition counted (value : property) : nat :=
  match value with Num n => n | _ => 0%nat end.

(** The sum of the counts of a breakdown. *)
Definition breakdown_total (typeStats : gmap string property) : nat :=
  map_fold (fun _ value total => (counted value + total)%nat) 0%nat typeStats.

(** The segments that make up a key: those of the type, then those of each
    param, an empty params list standing as one empty param. *)
Definition key_parts (type : string) (params : list string) : list string :=
  flat_map (split underscore)
           (type :: match params with [] => [EmptyString] | _ => params end).

(** * Properties *)

(** ** Strings *)

Section StringFacts.

Variable c : ascii.

Lemma split_nonempty s : split c s ≠ [].
Proof.
  destruct s as [|a rest]; simpl; [discriminate|].
  destruct (Ascii.eqb a c); [discriminate|].
  destruct (split c rest); discriminate.
Qed.

(** A string without the delimiter is its own single segment. *)
Lemma split_free_of s : free_of c s = true → split c s = [s].
Proof.
  induction s as [|a rest IH]; simpl; [reflexivity|].
  intros [Ha Hrest]%andb_true_iff.
  apply negb_true_iff in Ha. rewrite Ha, (IH Hrest). reflexivity.
Qed.

(** The first delimiter after a delimiter-free string ends a segment. *)
Lemma split_app_delimiter s rest :
  free_of c s = true → split c (s +:+ String c rest) = s :: split c rest.
Proof.
  induction s as [|a s' IH]; simpl.
  - intros _. rewrite Ascii.eqb_refl. reflexivity.
  - intros [Ha Hs']%andb_true_iff.
    apply negb_true_iff in Ha. rewrite Ha, (IH Hs'). reflexivity.
Qed.

(** [split] undoes [join] on a non-empty list of delimiter-free parts. *)
Lemma split_join parts :
  parts ≠ [] → forallb (free_of c) parts = true →
  split c (join (String c EmptyString) parts) = parts.
Proof.
  induction parts as [|p [|q more] IH]; [congruence| |].
  - intros _ [Hp _]%andb_true_iff. simpl. apply split_free_of, Hp.
  - intros _ [Hp Hmore]%andb_true_iff.
    change (join (String c EmptyString) (p :: q :: more))
      with (p +:+ String c (join (String c EmptyString) (q :: more))).
    rewrite split_app_delimiter by exact Hp.
    f_equal. apply IH; [discriminate | exact Hmore].
Qed.

End StringFacts.

Lemma startsWith_app pattern rest : startsWith pattern (pattern +:+ rest) = true.
Proof.
  induction pattern as [|a p IH]; simpl; [reflexivity|].
  rewrite Ascii.eqb_refl. exact IH.
Qed.

Lemma startsWith_inv pattern key :
  startsWith pattern key = true → ∃ rest, key = pattern +:+ rest.
Proof.
  revert key. induction pattern as [|a p IH]; intros key; simpl.
  - intros _. exists key. reflexivity.
  - destruct key as [|b k]; [discriminate|].
    intros [Hab Hpk]%andb_true_iff. apply Ascii.eqb_eq in Hab. subst b.
    destruct (IH k Hpk) as [rest ->]. exists rest. reflexivity.
Qed.

Lemma length_append (s1 s2 : string) :
  String.length (s1 +:+ s2) = (String.length s1 + String.length s2)%nat.
Proof. induction s1 as [|a s1 IH]; simpl; [reflexivity | rewrite IH; reflexivity]. Qed.

(** Appending the same tail to two strings keeps them apart. *)
Lemma append_inv_tail (s1 s2 tail : string) :
  s1 +:+ tail = s2 +:+ tail → s1 = s2.
Proof.
  revert s2. induction s1 as [|x s1 IH]; intros [|y s2] Heq; try reflexivity.
  - apply (f_equal String.length) in Heq.
    rewrite !length_append in Heq. simpl in Heq. lia.
  - apply (f_equal String.length) in Heq.
    rewrite !length_append in Heq. simpl in Heq. lia.
  - simpl in Heq. injection Heq as -> Heq. f_equal. apply IH, Heq.
Qed.

(** ** Keys *)

Lemma createCacheKey_split type params :
  free_of underscore type = true →
  forallb (free_of underscore) params = true →
  split underscore (createCacheKey type params) = key_segments type params.
Proof.
  intros Htype Hparams. unfold createCacheKey, key_segments.
  change ("_" +:+ join "_" params) with (String underscore (join "_" params)).
  rewrite split_app_delimiter by exact Htype. f_equal.
  destruct params as [|p more]; [reflexivity|].
  apply (split_join underscore); [discriminate | exact Hparams].
Qed.

(** The pattern of [invalidateCache] is the key of the type with the user and
    the school as its only params. *)
Lemma invalidation_pattern_key cacheType userId escuelaId :
  invalidation_pattern cacheType userId escuelaId
  = createCacheKey cacheType [userId; escuelaId].
Proof. reflexivity. Qed.

(** C5, as stated, fails: an empty params list and a params list holding one
    empty string give the same key, and so do a param containing the
    delimiter and the two params it splits into. *)
Lemma createCacheKey_not_injective :
  ¬ (∀ type1 params1 type2 params2,
        createCacheKey type1 params1 = createCacheKey type2 params2 →
        type1 = type2 ∧ params1 = params2).
Proof.
  intros Hinj.
  assert (createCacheKey "acudientes" [] = createCacheKey "acudientes" [""])
    as Hempty by reflexivity.
  destruct (Hinj _ _ _ _ Hempty) as [_ Habs]. discriminate Habs.
Qed.

(** The two kinds of collision, on keys the services build. *)
Example createCacheKey_collisions :
  createCacheKey "acudientes" [] = createCacheKey "acudientes" [""]
  ∧ createCacheKey "destinatarios" ["u1"; "s1_x"]
    = createCacheKey "destinatarios" ["u1"; "s1"; "x"]
  ∧ createCacheKey "dashboard" ["rol"; "u1"] = createCacheKey "dashboard_rol" ["u1"].
Proof. repeat split. Qed.

(** [split] and [join], for strings of any content. *)
Lemma split_app_any (c : ascii) head tail :
  split c (head +:+ String c tail) = split c head ++ split c tail.
Proof.
  induction head as [|a head IH]; [simpl; rewrite Ascii.eqb_refl; reflexivity|].
  change (split c (String a (head +:+ String c tail))
          = split c (String a head) ++ split c tail).
  simpl. rewrite IH. destruct (Ascii.eqb a c); [reflexivity|].
  pose proof (split_nonempty c head) as Hne.
  destruct (split c head) as [|seg segs]; [congruence | reflexivity].
Qed.

Lemma join_cons_char (sep : string) a seg segs :
  join sep (String a seg :: segs) = String a (join sep (seg :: segs)).
Proof. destruct segs; reflexivity. Qed.

Lemma join_split (c : ascii) s : join (String c EmptyString) (split c s) = s.
Proof.
  induction s as [|a rest IH]; [reflexivity|]. simpl.
  pose proof (split_nonempty c rest) as Hne.
  destruct (Ascii.eqb_spec a c) as [->|_].
  - destruct (split c rest) as [|seg segs]; [congruence|].
    change (join (String c EmptyString) (EmptyString :: seg :: segs))
      with (String c (join (String c EmptyString) (seg :: segs))).
    rewrite IH. reflexivity.
  - destruct (split c rest) as [|seg segs]; [congruence|].
    rewrite join_cons_char, IH. reflexivity.
Qed.

Lemma split_join_any (c : ascii) parts :
  parts ≠ [] →
  split c (join (String c EmptyString) parts) = flat_map (split c) parts.
Proof.
  induction parts as [|p [|q more] IH]; [congruence| |]; intros _.
  - simpl. rewrite app_nil_r. reflexivity.
  - change (join (String c EmptyString) (p :: q :: more))
      with (p +:+ String c (join (String c EmptyString) (q :: more))).
    rewrite split_app_any, IH by discriminate. reflexivity.
Qed.

Lemma flat_map_split_free (c : ascii) parts :
  forallb (free_of c) parts = true → flat_map (split c) parts = parts.
Proof.
  induction parts as [|p parts IH]; simpl; [reflexivity|].
  intros [Hp Hparts]%andb_true_iff.
  rewrite (split_free_of c p Hp), (IH Hparts). reflexivity.
Qed.

(** The key is its parts joined, and its parts are the key split. *)
Lemma createCacheKey_parts type params :
  split underscore (createCacheKey type params) = key_parts type params
  ∧ join "_" (key_parts type params) = createCacheKey type params.
Proof.
  assert (createCacheKey type params
          = join "_" (type :: match params with [] => [EmptyString] | _ => params end))
    as Hjoin by (destruct params; reflexivity).
  assert (split underscore (createCacheKey type params) = key_parts type params)
    as Hsplit.
  { rewrite Hjoin. apply (split_join_any underscore). discriminate. }
  split; [exact Hsplit|].
  rewrite <- Hsplit. apply (join_split underscore).
Qed.

Lemma same_blank_params (params1 params2 : list string) :
  match params1 with [] => [EmptyString] | _ => params1 end
  = match params2 with [] => [EmptyString] | _ => params2 end →
  params1 = params2
  ∨ (params1 = [] ∧ params2 = [EmptyString])
  ∨ (params1 = [EmptyString] ∧ params2 = []).
Proof.
  destruct params1 as [|p1 more1], params2 as [|p2 more2]; intros Heq.
  - left. reflexivity.
  - right. left. split; [reflexivity | symmetry; exact Heq].
  - right. right. split; [exact Heq | reflexivity].
  - left. exact Heq.
Qed.

Lemma blank_params_free (params : list string) :
  forallb (free_of underscore) params = true →
  flat_map (split underscore)
           (match params with [] => [EmptyString] | _ => params end)
  = match params with [] => [EmptyString] | _ => params end.
Proof.
  intros Hfree. apply flat_map_split_free.
  destruct params; [reflexivity | exact Hfree].
Qed.

(** C5, amended: the key is a function of (type, params), and two inputs
    give the same key exactly when their parts agree: the segments of the
    type followed by the segments of each param, an empty params list
    standing as one empty param. Hence, for one type name, whatever it
    holds, params lists that are free of the underscore give the same key
    only if they are the same list, or are the empty list and the list
    holding one empty string; between two type names that are free of the
    underscore the types must agree as well. And the collisions are there:
    the empty list against one empty string, a param holding the delimiter
    against the two it splits into, a type holding the delimiter against its
    first part with the rest as a param. *)
Theorem createCacheKey_same_key type1 params1 type2 params2 :
  (createCacheKey type1 params1 = createCacheKey type2 params2
   ↔ key_parts type1 params1 = key_parts type2 params2)
  ∧ (forallb (free_of underscore) params1 = true →
     forallb (free_of underscore) params2 = true →
     createCacheKey type1 params1 = createCacheKey type1 params2 →
     params1 = params2
     ∨ (params1 = [] ∧ params2 = [""]) ∨ (params1 = [""] ∧ params2 = []))
  ∧ (free_of underscore type1 = true → free_of underscore type2 = true →
     forallb (free_of underscore) params1 = true →
     forallb (free_of underscore) params2 = true →
     createCacheKey type1 params1 = createCacheKey type2 params2 →
     type1 = type2 ∧
     (params1 = params2
      ∨ (params1 = [] ∧ params2 = [""]) ∨ (params1 = [""] ∧ params2 = [])))
  ∧ createCacheKey type1 [] = createCacheKey type1 [""]
  ∧ (∀ a b rest,
        createCacheKey type1 ((a +:+ "_" +:+ b) :: rest)
        = createCacheKey type1 (a :: b :: rest))
  ∧ (∀ rest, rest ≠ [] →
        createCacheKey (type1 +:+ "_" +:+ type2) rest
        = createCacheKey type1 (type2 :: rest)).
Proof.
  assert (∀ t1 p1 t2 p2,
            createCacheKey t1 p1 = createCacheKey t2 p2
            ↔ key_parts t1 p1 = key_parts t2 p2) as Hiff.
  { intros t1 p1 t2 p2. split.
    - intros Hkey. rewrite <- (proj1 (createCacheKey_parts t1 p1)), Hkey.
      apply createCacheKey_parts.
    - intros Hparts. rewrite <- (proj2 (createCacheKey_parts t1 p1)), Hparts.
      apply createCacheKey_parts. }
  split; [apply Hiff|]. split; [|split; [|split; [|split]]].
  - intros Hp1 Hp2 Hkey. apply Hiff in Hkey. unfold key_parts in Hkey.
    simpl in Hkey. apply app_inv_head in Hkey.
    rewrite !blank_params_free in Hkey by assumption.
    apply same_blank_params, Hkey.
  - intros Ht1 Ht2 Hp1 Hp2 Hkey. apply Hiff in Hkey. unfold key_parts in Hkey.
    simpl in Hkey.
    rewrite (split_free_of underscore type1 Ht1) in Hkey.
    rewrite (split_free_of underscore type2 Ht2) in Hkey.
    rewrite !blank_params_free in Hkey by assumption.
    injection Hkey as Htype Hparams.
    split; [exact Htype | apply same_blank_params, Hparams].
  - reflexivity.
  - intros a b rest. apply Hiff. unfold key_parts. simpl.
    change (a +:+ "_" +:+ b) with (a +:+ String underscore b).
    rewrite split_app_any, <- app_assoc. reflexivity.
  - intros rest Hrest. apply Hiff. unfold key_parts.
    destruct rest as [|r rest]; [congruence|]. simpl.
    change (type1 +:+ "_" +:+ type2) with (type1 +:+ String underscore type2).
    rewrite split_app_any, <- app_assoc. reflexivity.
Qed.

Lemma createCacheKey_same_key_witness :
  (["e1"; "a1"; "1"; "2024"] = ["e1"; "a1"; "1"; "2024"]
   ∨ (["e1"; "a1"; "1"; "2024"] = [] ∧ ["e1"; "a1"; "1"; "2024"] = [""])
   ∨ (["e1"; "a1"; "1"; "2024"] = [""] ∧ ["e1"; "a1"; "1"; "2024"] = []))
  ∧ ("dashboard" = "dashboard"
     ∧ (@nil string = [""]
        ∨ (@nil string = [] ∧ [""] = [""]) ∨ (@nil string = [""] ∧ [""] = @nil string))).
Proof.
  split.
  - destruct (createCacheKey_same_key "promedio_periodo" ["e1"; "a1"; "1"; "2024"]
                "promedio_periodo" ["e1"; "a1"; "1"; "2024"]) as (_ & Hsame & _).
    apply Hsame; reflexivity.
  - destruct (createCacheKey_same_key "dashboard" [] "dashboard" [""])
      as (_ & _ & Hfree & _).
    apply Hfree; reflexivity.
Defined.

(** The example of the specification: same input, same key; another school,
    another key. *)
Example createCacheKey_example :
  createCacheKey "dashboard" ["u1"; "s1"] = "dashboard_u1_s1" ∧
  createCacheKey "dashboard" ["u1"; "s1"] ≠ createCacheKey "dashboard" ["u1"; "s2"].
Proof. split; [reflexivity | discriminate]. Qed.

(** C8, as stated, fails: with no params the key is not the type alone. *)
Lemma createCacheKey_empty_not_type_alone :
  ¬ (∀ type, createCacheKey type [] = type).
Proof. intros H. discriminate (H "dashboard"). Qed.

(** C8, amended: with an empty params list the key is the type followed by
    one underscore, and two types that differ give keys that differ. *)
Theorem createCacheKey_empty_params type1 type2 :
  createCacheKey type1 [] = type1 +:+ "_" ∧
  (type1 ≠ type2 → createCacheKey type1 [] ≠ createCacheKey type2 []).
Proof.
  split; [reflexivity|].
  intros Hne Hkey. apply Hne.
  exact (append_inv_tail type1 type2 "_" Hkey).
Qed.

Lemma createCacheKey_empty_params_witness :
  createCacheKey "dashboard" [] = "dashboard_" ∧
  createCacheKey "dashboard" [] ≠ createCacheKey "mensajes" [].
Proof.
  destruct (createCacheKey_empty_params "dashboard" "mensajes") as [Hkey Hne].
  split; [exact Hkey|].
  apply Hne. discriminate.
Defined.

(** ** [DashboardCache]: expiry on read *)

Module DashboardCacheFacts.
Import DashboardCache.

(** [get] decided by the age of the entry. *)
Lemma get_stored now key (cache : gmap string item) it :
  cache !! key = Some it →
  get now key cache =
    if now - timestamp it >? ttl it * 1000
    then (JNull, delete key cache) else (data it, cache).
Proof. intros Hit. unfold get. rewrite Hit. reflexivity. Qed.

Lemma get_absent now key (cache : gmap string item) :
  cache !! key = None → get now key cache = (JNull, cache).
Proof. intros Hnone. unfold get. rewrite Hnone. reflexivity. Qed.

(** C2: times are in milliseconds and the lifetime in seconds, so an entry
    is within its lifetime when [now - timestamp <= ttl * 1000]. Within it,
    [get] returns the stored value and leaves the map as it is, the boundary
    included; past it, [get] returns [null] and the entry is gone from the
    map, every other entry staying. *)
Theorem get_respects_ttl now key (cache : gmap string item) it :
  cache !! key = Some it →
  (now - timestamp it ≤ ttl it * 1000 →
     get now key cache = (data it, cache)) ∧
  (now - timestamp it > ttl it * 1000 →
     fst (get now key cache) = JNull ∧
     snd (get now key cache) !! key = None ∧
     ∀ other, other ≠ key → snd (get now key cache) !! other = cache !! other).
Proof.
  intros Hit. rewrite (get_stored now key cache it Hit). split.
  - intros Hlive. destruct (Z.gtb_spec (now - timestamp it) (ttl it * 1000)) as [Hgt|_].
    + lia.
    + reflexivity.
  - intros Hold. destruct (Z.gtb_spec (now - timestamp it) (ttl it * 1000)) as [_|Hle].
    + simpl. split; [reflexivity|]. split.
      * apply lookup_delete_eq.
      * intros other Hne. apply lookup_delete_ne. congruence.
    + lia.
Qed.

(** The example of the specification: stored at t = 0 with a lifetime of 5
    seconds; read at 5 s it is there, read at 6 s it is not. *)
Lemma get_respects_ttl_witness :
  let cache := set 0 "k" (JStr "v") 5 ∅ in
  get 5000 "k" cache = (JStr "v", cache) ∧
  fst (get 6000 "k" cache) = JNull ∧
  snd (get 6000 "k" cache) !! "k" = None.
Proof.
  intros cache.
  pose (it := {| data := JStr "v"; timestamp := 0; ttl := 5 |}).
  assert (cache !! "k" = Some it) as Hit by apply lookup_insert_eq.
  destruct (get_respects_ttl 5000 "k" cache it Hit) as [Hlive _].
  destruct (get_respects_ttl 6000 "k" cache it Hit) as [_ Hold].
  split; [apply Hlive; simpl; lia|].
  destruct Hold as (Hnull & Hgone & _); [simpl; lia|].
  split; assumption.
Defined.

(** C9, as stated, fails: an entry stored with a lifetime of 0 and read in
    the same millisecond is served. *)
Lemma zero_ttl_served_in_same_instant :
  ¬ (∀ (cache : gmap string item) key d stored now,
        stored ≤ now →
        fst (get now key (set stored key d 0 cache)) = JNull).
Proof.
  intros Hclaim.
  specialize (Hclaim ∅ "k" (JStr "v") 1000 1000 ltac:(lia)).
  vm_compute in Hclaim. discriminate Hclaim.
Qed.

(** C9, amended: an entry stored with a lifetime of 0 is expired on every
    read made later than the store (one millisecond is enough), and the
    read removes it; a read in the instant of the store still returns the
    stored value. *)
Theorem zero_ttl_expires_after_store (cache : gmap string item) key d stored now :
  (stored < now →
     get now key (set stored key d 0 cache) = (JNull, delete key cache)) ∧
  (now = stored →
     get now key (set stored key d 0 cache) = (d, set stored key d 0 cache)).
Proof.
  pose (it := {| data := d; timestamp := stored; ttl := 0 |}).
  assert (set stored key d 0 cache !! key = Some it) as Hit
    by apply lookup_insert_eq.
  rewrite (get_stored now key _ it Hit). simpl.
  change (0 * 1000) with 0. split.
  - intros Hlater. destruct (Z.gtb_spec (now - stored) 0) as [_|Hle]; [|lia].
    unfold set. rewrite delete_insert_eq. reflexivity.
  - intros ->. destruct (Z.gtb_spec (stored - stored) 0) as [Hgt|_]; [lia|].
    reflexivity.
Qed.

Lemma zero_ttl_expires_after_store_witness :
  get 1001 "k" (set 1000 "k" (JStr "v") 0 ∅) = (JNull, delete "k" ∅) ∧
  get 1000 "k" (set 1000 "k" (JStr "v") 0 ∅) = (JStr "v", set 1000 "k" (JStr "v") 0 ∅).
Proof.
  destruct (zero_ttl_expires_after_store ∅ "k" (JStr "v") 1000 1001) as [Hlater _].
  destruct (zero_ttl_expires_after_store ∅ "k" (JStr "v") 1000 1000) as [_ Hsame].
  split; [apply Hlater; lia | apply Hsame; reflexivity].
Defined.

End DashboardCacheFacts.

(** ** The shared store: lookups after removals *)

Module NodeCacheFacts.
Import NodeCache.

Lemma filter_all {A} (l : list A) : List.filter (fun _ => true) l = l.
Proof. induction l as [|x l IH]; simpl; [reflexivity | rewrite IH; reflexivity]. Qed.

Lemma filter_twice {A} (f g : A → bool) (l : list A) :
  List.filter g (List.filter f l) = List.filter (fun x => f x && g x) l.
Proof.
  induction l as [|x l IH]; simpl; [reflexivity|].
  destruct (f x); simpl; [destruct (g x)|]; rewrite IH; reflexivity.
Qed.

Lemma filter_map_fst {A B} (f : A → bool) (l : list (A * B)) :
  List.filter f (map fst l) = map fst (List.filter (fun ab => f (fst ab)) l).
Proof.
  induction l as [|[a b] l IH]; simpl; [reflexivity|].
  destruct (f a); simpl; rewrite IH; reflexivity.
Qed.

(** Filtering on the key alone either keeps the lookup of a key or loses it. *)
Lemma find_entry_filter (keep : string → bool) key es :
  find_entry key (List.filter (fun ke => keep (fst ke)) es)
  = if keep key then find_entry key es else None.
Proof.
  induction es as [|[k e] es IH]; simpl.
  - destruct (keep key); reflexivity.
  - destruct (String.eqb_spec k key) as [->|Hne].
    + destruct (keep key); simpl; [rewrite String.eqb_refl; reflexivity|].
      exact IH.
    + destruct (keep k); simpl; [|exact IH].
      destruct (String.eqb_spec k key); [contradiction | exact IH].
Qed.

Lemma find_entry_remove key key' es :
  find_entry key (remove_entry key' es)
  = if String.eqb key key' then None else find_entry key es.
Proof.
  unfold remove_entry.
  rewrite (find_entry_filter (fun k => negb (String.eqb k key'))).
  destruct (String.eqb key key'); reflexivity.
Qed.

Lemma find_entry_In key e es : find_entry key es = Some e → In (key, e) es.
Proof.
  induction es as [|[k e'] es IH]; simpl; [discriminate|].
  destruct (String.eqb_spec k key) as [->|_].
  - intros [= ->]. left. reflexivity.
  - intros H. right. exact (IH H).
Qed.

Lemma length_remove_entry key es : (length (remove_entry key es) ≤ length es)%nat.
Proof. unfold remove_entry. apply List.filter_length_le. Qed.

(** Removing a key that is there shortens the list. *)
Lemma length_remove_present key es e :
  find_entry key es = Some e → (length (remove_entry key es) < length es)%nat.
Proof.
  induction es as [|[k e'] es IH]; simpl; [discriminate|].
  destruct (String.eqb_spec k key) as [->|Hne]; simpl.
  - intros _. pose proof (length_remove_entry key es). lia.
  - intros Hfind. specialize (IH Hfind). lia.
Qed.

(** A key that [peek] finds is among [keys]. *)
Lemma peek_in_keys now key c v : peek now key c = Some v → In key (keys now c).
Proof.
  unfold peek, keys. destruct (find_entry key (entries c)) as [e|] eqn:Hfind;
    [|discriminate].
  destruct (expired now e) eqn:Hexp; [discriminate|]. intros _.
  apply in_map_iff. exists (key, e). split; [reflexivity|].
  apply List.filter_In. split; [exact (find_entry_In _ _ _ Hfind)|].
  simpl. rewrite Hexp. reflexivity.
Qed.

(** Deleting a list of keys filters the entries on their names. *)
Lemma entries_fold_del ks c :
  entries (fold_left (fun c' key => del key c') ks c)
  = List.filter (fun ke => negb (existsb (String.eqb (fst ke)) ks)) (entries c).
Proof.
  revert c. induction ks as [|k ks IH]; intros c; simpl.
  - symmetry. apply filter_all.
  - rewrite IH. unfold del, remove_entry. simpl. rewrite filter_twice.
    apply List.filter_ext. intros [k' e]. simpl.
    rewrite negb_orb. reflexivity.
Qed.

Lemma counters_fold_del ks c :
  let c' := fold_left (fun c' key => del key c') ks c in
  opts c' = opts c ∧ hits c' = hits c ∧ misses c' = misses c.
Proof.
  revert c. induction ks as [|k ks IH]; intros c; simpl; [auto|].
  destruct (IH (del k c)) as (Ho & Hh & Hm). simpl in *. auto.
Qed.

End NodeCacheFacts.

(** ** Invalidation by prefix *)

Section Invalidation.
Import NodeCache NodeCacheFacts.

Variable now : Z.
Variables userId escuelaId : string.

(** The keys [invalidateCache] deletes. *)
Let doomed (cacheType : string) (c : store) : list string :=
  List.filter (in_scope userId escuelaId cacheType) (keys now c).

Lemma doomed_in_scope cacheType c key :
  in_scope userId escuelaId cacheType key = false →
  existsb (String.eqb key) (doomed cacheType c) = false.
Proof.
  intros Hout. apply not_true_is_false. intros Hex.
  apply existsb_exists in Hex as (k & Hin & Heq).
  apply String.eqb_eq in Heq. subst k.
  apply List.filter_In in Hin as [_ Hscope]. congruence.
Qed.

Lemma doomed_live cacheType c key e :
  In (key, e) (entries c) → expired now e = false →
  existsb (String.eqb key) (doomed cacheType c)
  = in_scope userId escuelaId cacheType key.
Proof.
  intros Hin Hlive. destruct (in_scope userId escuelaId cacheType key) eqn:Hscope.
  - apply existsb_exists. exists key. split; [|apply String.eqb_refl].
    apply List.filter_In. split; [|exact Hscope].
    apply in_map_iff. exists (key, e). split; [reflexivity|].
    apply List.filter_In. split; [exact Hin|]. simpl. rewrite Hlive. reflexivity.
  - apply doomed_in_scope, Hscope.
Qed.

Lemma entries_invalidateCache cacheType c :
  entries (invalidateCache now cacheType userId escuelaId c)
  = List.filter
      (fun ke => negb (existsb (String.eqb (fst ke)) (doomed cacheType c)))
      (entries c).
Proof. unfold invalidateCache. apply entries_fold_del. Qed.

(** One type: the live keys in scope go, the other live keys stay in their
    order, and a key out of scope keeps its entry. *)
Lemma invalidateCache_scope cacheType c :
  let c' := invalidateCache now cacheType userId escuelaId c in
  keys now c'
  = List.filter (fun key => negb (in_scope userId escuelaId cacheType key)) (keys now c)
  ∧ (∀ key, in_scope userId escuelaId cacheType key = false →
            find_entry key (entries c') = find_entry key (entries c)).
Proof.
  cbv zeta. split.
  - unfold keys at 1 2. rewrite entries_invalidateCache.
    rewrite filter_map_fst, !filter_twice. f_equal.
    apply List.filter_ext_in. intros [key e] Hin. simpl.
    destruct (expired now e) eqn:Hexp; simpl.
    + apply andb_false_r.
    + rewrite (doomed_live cacheType c key e Hin Hexp). apply andb_true_r.
  - intros key Hout. rewrite entries_invalidateCache.
    rewrite (find_entry_filter
               (fun k => negb (existsb (String.eqb k) (doomed cacheType c)))).
    rewrite (doomed_in_scope cacheType c key Hout). reflexivity.
Qed.

(** Several types, one after the other. *)
Lemma invalidate_types_scope types c :
  let c' := fold_left
              (fun c' cacheType => invalidateCache now cacheType userId escuelaId c')
              types c in
  keys now c'
  = List.filter (fun key => negb (in_scope_of userId escuelaId types key)) (keys now c)
  ∧ (∀ key, in_scope_of userId escuelaId types key = false →
            find_entry key (entries c') = find_entry key (entries c)).
Proof.
  revert c. induction types as [|t ts IH]; intros c; simpl.
  - split; [symmetry; apply filter_all | reflexivity].
  - destruct (IH (invalidateCache now t userId escuelaId c)) as [Hkeys Hfind].
    destruct (invalidateCache_scope t c) as [Hkeys1 Hfind1].
    simpl in Hkeys, Hfind, Hkeys1, Hfind1. split.
    + rewrite Hkeys, Hkeys1, filter_twice. apply List.filter_ext.
      intros key. rewrite negb_orb. reflexivity.
    + intros key [Ht Hts]%orb_false_iff.
      rewrite (Hfind key Hts). apply Hfind1, Ht.
Qed.

End Invalidation.

(** C3: after [invalidateRelatedCache] the live keys are the former live keys
    that start with none of the patterns, in their former order; a key that
    starts with the pattern of the primary type or of a related type can no
    longer be read; every other key has the entry it had. The pattern of a
    type is its key for the params [userId; escuelaId]. *)
Theorem invalidateRelatedCache_scope now primaryType userId escuelaId relatedTypes c :
  let c' := invalidateRelatedCache now primaryType userId escuelaId relatedTypes c in
  let types := primaryType :: relatedTypes in
  NodeCache.keys now c'
  = List.filter (fun key => negb (in_scope_of userId escuelaId types key))
                (NodeCache.keys now c)
  ∧ (∀ key, in_scope_of userId escuelaId types key = true →
            NodeCache.peek now key c' = None)
  ∧ (∀ key, in_scope_of userId escuelaId types key = false →
            NodeCache.find_entry key (NodeCache.entries c')
            = NodeCache.find_entry key (NodeCache.entries c)).
Proof.
  cbv zeta. unfold invalidateRelatedCache.
  destruct (invalidate_types_scope now userId escuelaId
              (primaryType :: relatedTypes) c) as [Hkeys Hfind].
  cbv zeta in Hkeys, Hfind. split; [exact Hkeys|]. split; [|exact Hfind].
  intros key Hscope.
  destruct (NodeCache.peek now key _) as [v|] eqn:Hpeek; [|reflexivity].
  apply NodeCacheFacts.peek_in_keys in Hpeek. rewrite Hkeys in Hpeek.
  apply List.filter_In in Hpeek as [_ Hout].
  rewrite Hscope in Hout. discriminate Hout.
Qed.

(** The example of the specification: of the three keys, the two of user u1
    in school s1 go and the one of user u2 stays. *)
Example invalidateRelatedCache_example :
  let c0 := NodeCache.create NodeCache.cache_options in
  let key1 := "dashboard_u1_s1_{}" in
  let key2 := "dashboard_u1_s1_" +:+ query_q_x in
  let key3 := "dashboard_u2_s1_{}" in
  let c :=
    NodeCache.set 2 key3 (JObj "c") 180
      (NodeCache.set 1 key2 (JObj "b") 180
         (NodeCache.set 0 key1 (JObj "a") 180 c0)) in
  NodeCache.keys 3 c = [key1; key2; key3]
  ∧ NodeCache.keys 3 (invalidateRelatedCache 3 "dashboard" "u1" "s1" [] c) = [key3].
Proof. split; reflexivity. Qed.

(** ** The read-through helper *)

Section ReadThroughFacts.
Import NodeCache NodeCacheFacts.

Context {W : Type}.
Variable clock : W → Z.

(** [getOrSetCache], step by step. *)
Lemma getOrSetCache_run key ttl (fetchFunction : fetcher W) (rt : runtime W) :
  getOrSetCache clock key ttl fetchFunction rt =
    let now := clock (world rt) in
    let c := snd (get now key (cache rt)) in
    if truthy (looked_up now key (cache rt))
    then (Async.Resolved (looked_up now key (cache rt)),
          {| cache := c; world := world rt |})
    else
      match fetchFunction (world rt) with
      | (Async.Resolved result, w) =>
          (Async.Resolved result,
           {| cache := set (clock w) key result ttl c; world := w |})
      | (Async.Rejected reason, w) =>
          (Async.Rejected reason, {| cache := c; world := w |})
      end.
Proof.
  unfold getOrSetCache, looked_up, mbind, async_bind, Async.bind, cache_get.
  destruct (get (clock (world rt)) key (cache rt)) as [found c]. simpl.
  destruct (truthy (default JUndefined found)); [reflexivity|].
  unfold await. simpl.
  destruct (fetchFunction (world rt)) as [[result|reason] w]; reflexivity.
Qed.

(** A lookup never adds an entry. *)
Lemma get_adds_nothing now key c k e :
  find_entry k (entries (snd (get now key c))) = Some e →
  find_entry k (entries c) = Some e.
Proof.
  unfold get. destruct (find_entry key (entries c)) as [e0|]; [|exact id].
  destruct (expired now e0); [|exact id]. simpl.
  rewrite find_entry_remove. destruct (String.eqb k key); [discriminate | exact id].
Qed.

(** A lookup that came back falsy comes back falsy again, whenever it is
    repeated. *)
Lemma looked_up_falsy_again now later key c :
  truthy (looked_up now key c) = false →
  truthy (looked_up later key (snd (get now key c))) = false.
Proof.
  unfold looked_up, get.
  destruct (find_entry key (entries c)) as [e|] eqn:Hfind.
  - destruct (expired now e) eqn:Hexp; simpl.
    + intros _. rewrite find_entry_remove, String.eqb_refl. reflexivity.
    + intros Hfalsy. rewrite Hfind. destruct (expired later e); [reflexivity|].
      exact Hfalsy.
  - simpl. intros _. rewrite Hfind. reflexivity.
Qed.

(** A live entry is what the lookup hands back. *)
Lemma looked_up_live now key c e :
  find_entry key (entries c) = Some e → expired now e = false →
  get now key c = (Some (value e), count_hit c).
Proof. intros Hfind Hlive. unfold get. rewrite Hfind, Hlive. reflexivity. Qed.

End ReadThroughFacts.

(** C1: when the lookup is a miss and the fetch function rejects,
    [getOrSetCache] rejects with the same reason, the store is left as the
    lookup left it (the lookup adds no entry and [set] is not reached), and
    a call for the same key made right after, with any fetch function, runs
    that function again: its outcome and its effect on the world are the
    function's. *)
Theorem getOrSetCache_failure_not_cached {W} (clock : W → Z) key ttl
    (fetchFunction : fetcher W) (rt : runtime W) reason w :
  truthy (looked_up (clock (world rt)) key (cache rt)) = false →
  fetchFunction (world rt) = (Async.Rejected reason, w) →
  let after := {| cache := snd (NodeCache.get (clock (world rt)) key (cache rt));
                  world := w |} in
  getOrSetCache clock key ttl fetchFunction rt = (Async.Rejected reason, after)
  ∧ (∀ k e, NodeCache.find_entry k (NodeCache.entries (cache after)) = Some e →
            NodeCache.find_entry k (NodeCache.entries (cache rt)) = Some e)
  ∧ (∀ ttl' (again : fetcher W),
        fst (getOrSetCache clock key ttl' again after) = fst (again w)
        ∧ world (snd (getOrSetCache clock key ttl' again after)) = snd (again w)).
Proof.
  intros Hmiss Hfetch after. split; [|split].
  - rewrite getOrSetCache_run. cbv zeta. rewrite Hmiss, Hfetch. reflexivity.
  - intros k e. apply get_adds_nothing.
  - intros ttl' again. rewrite getOrSetCache_run. cbv zeta.
    subst after. cbn [cache world].
    rewrite (looked_up_falsy_again _ (clock w) key (cache rt) Hmiss).
    destruct (again w) as [[result|reason'] w']; split; reflexivity.
Qed.

Lemma getOrSetCache_failure_not_cached_witness :
  let clock := fun _ : nat => 0 in
  let rt := {| cache := NodeCache.create NodeCache.cache_options; world := 0%nat |} in
  ∃ after,
    getOrSetCache clock "k" 120 failing_fetch rt
    = (Async.Rejected (JStr "database down"), after)
    ∧ NodeCache.entries (cache after) = []
    ∧ world (snd (getOrSetCache clock "k" 120 failing_fetch after)) = 2%nat.
Proof.
  intros clock rt.
  destruct (getOrSetCache_failure_not_cached clock "k" 120 failing_fetch rt
              (JStr "database down") 1%nat) as (Hrun & _ & Hagain);
    [reflexivity | reflexivity |].
  eexists. split; [exact Hrun|]. split; [reflexivity|].
  destruct (Hagain 120 failing_fetch) as [_ Hworld]. exact Hworld.
Defined.



(** ** Capacity *)

Section Capacity.
Import NodeCache NodeCacheFacts.

Lemma opts_set now key v ttl c : opts (set now key v ttl c) = opts c.
Proof. reflexivity. Qed.

(** One [set] keeps a store within its capacity. *)
Lemma set_within_capacity now key v ttl c :
  (1 ≤ maxKeys (opts c))%nat →
  (length (entries c) ≤ maxKeys (opts c))%nat →
  (length (entries (set now key v ttl c)) ≤ maxKeys (opts c))%nat.
Proof.
  intros Hcap Hlen. unfold set. simpl. rewrite length_app. simpl.
  destruct (find_entry key (entries c)) as [e|] eqn:Hfind.
  - pose proof (length_remove_present key (entries c) e Hfind). lia.
  - destruct (Nat.leb_spec (maxKeys (opts c)) (length (entries c))) as [Hfull|Hroom].
    + destruct (entries c) as [|oldest rest]; simpl in *; lia.
    + lia.
Qed.

Lemma run_sets_within_capacity calls c :
  (1 ≤ maxKeys (opts c))%nat →
  (length (entries c) ≤ maxKeys (opts c))%nat →
  opts (run_sets calls c) = opts c
  ∧ (length (entries (run_sets calls c)) ≤ maxKeys (opts c))%nat.
Proof.
  revert c. induction calls as [|call calls IH]; intros c Hcap Hlen; simpl; [auto|].
  destruct (IH (set (at_time call) (set_key call) (set_value call) (set_ttl call) c))
    as [Hopts Hbound].
  - exact Hcap.
  - rewrite opts_set. apply set_within_capacity; assumption.
  - rewrite opts_set in Hopts, Hbound. auto.
Qed.

Lemma length_keys now c : (length (keys now c) ≤ length (entries c))%nat.
Proof. unfold keys. rewrite length_map. apply List.filter_length_le. Qed.

End Capacity.

(** C4: a store that is within its capacity stays within it under every
    sequence of [set] calls, counted in entries and so also in live keys at
    any time; a [set] of a new key into a full store drops the oldest entry
    and appends the new one; and a [getOrSetCache] whose fetch function
    resolves resolves with that result whatever the fill of the store. The
    capacity of the store of the source is 500. *)
Theorem store_never_exceeds_capacity calls c now :
  (1 ≤ NodeCache.maxKeys (NodeCache.opts c))%nat →
  (length (NodeCache.entries c) ≤ NodeCache.maxKeys (NodeCache.opts c))%nat →
  (length (NodeCache.entries (run_sets calls c)) ≤ NodeCache.maxKeys (NodeCache.opts c))%nat
  ∧ (length (NodeCache.keys now (run_sets calls c)) ≤ NodeCache.maxKeys (NodeCache.opts c))%nat
  ∧ (∀ t key v ttl,
        NodeCache.find_entry key (NodeCache.entries c) = None →
        length (NodeCache.entries c) = NodeCache.maxKeys (NodeCache.opts c) →
        NodeCache.entries (NodeCache.set t key v ttl c)
        = tl (NodeCache.entries c)
          ++ [(key, {| NodeCache.value := v; NodeCache.storedAt := t;
                       NodeCache.ttlSeconds := ttl |})]
        ∧ length (NodeCache.entries (NodeCache.set t key v ttl c))
          = NodeCache.maxKeys (NodeCache.opts c))
  ∧ (∀ W (clock : W → Z) (rt : runtime W) key ttl (fetchFunction : fetcher W) result w,
        cache rt = c →
        truthy (looked_up (clock (world rt)) key c) = false →
        fetchFunction (world rt) = (Async.Resolved result, w) →
        fst (getOrSetCache clock key ttl fetchFunction rt) = Async.Resolved result)
  ∧ NodeCache.maxKeys NodeCache.cache_options = 500%nat.
Proof.
  intros Hcap Hlen.
  destruct (run_sets_within_capacity calls c Hcap Hlen) as [_ Hbound].
  split; [exact Hbound|]. split; [|split; [|split; [|reflexivity]]].
  - pose proof (length_keys now (run_sets calls c)). lia.
  - intros t key v ttl Hnew Hfull. unfold NodeCache.set. simpl.
    rewrite Hnew, Hfull, Nat.leb_refl. split; [reflexivity|].
    rewrite length_app. simpl.
    destruct (NodeCache.entries c) as [|oldest rest]; simpl in *; lia.
  - intros W clock rt key ttl fetchFunction result w Hc Hmiss Hfetch.
    rewrite getOrSetCache_run. cbv zeta. rewrite Hc, Hmiss, Hfetch. reflexivity.
Qed.

Lemma store_never_exceeds_capacity_witness :
  let calls :=
    [ {| at_time := 0; set_key := "a"; set_value := JNum 1; set_ttl := 60 |};
      {| at_time := 1; set_key := "b"; set_value := JNum 2; set_ttl := 60 |};
      {| at_time := 2; set_key := "c"; set_value := JNum 3; set_ttl := 60 |} ] in
  let small := {| NodeCache.stdTTL := 300; NodeCache.checkperiod := 60;
                  NodeCache.useClones := false; NodeCache.maxKeys := 2 |} in
  (length (NodeCache.entries (run_sets calls (NodeCache.create small))) ≤ 2)%nat
  ∧ (length (NodeCache.keys 3 (run_sets calls (NodeCache.create small))) ≤ 2)%nat.
Proof.
  intros calls small.
  destruct (store_never_exceeds_capacity calls (NodeCache.create small) 3)
    as (Hentries & Hkeys & _).
  - simpl. lia.
  - simpl. lia.
  - split; [exact Hentries | exact Hkeys].
Defined.

(** The store of the source, filled from empty, never holds more than 500
    entries. *)
Corollary source_store_bound calls now :
  (length (NodeCache.keys now (run_sets calls (NodeCache.create NodeCache.cache_options)))
   ≤ 500)%nat.
Proof.
  pose proof (length_keys now (run_sets calls (NodeCache.create NodeCache.cache_options))).
  destruct (run_sets_within_capacity calls (NodeCache.create NodeCache.cache_options))
    as [_ Hbound]; simpl in *; lia.
Qed.

(** With room for two, the third key pushes the first out. *)
Example eviction_example :
  let small := {| NodeCache.stdTTL := 300; NodeCache.checkperiod := 60;
                  NodeCache.useClones := false; NodeCache.maxKeys := 2 |} in
  NodeCache.keys 3
    (NodeCache.set 2 "c" (JNum 3) 60
       (NodeCache.set 1 "b" (JNum 2) 60
          (NodeCache.set 0 "a" (JNum 1) 60 (NodeCache.create small))))
  = ["b"; "c"].
Proof. reflexivity. Qed.

(** ** Statistics *)

(** C6: the type the report counts a key under is the first segment of the
    key, and for a type whose name has an underscore that is not the type.
    A key of [cacheMiddleware('dashboard_rol')] is counted under
    [dashboard], whose policy differs from that of [dashboard_rol]; a key of
    [createCacheKey('promedio_periodo', ...)] gives [promedio], which is not
    a configured type at all. *)
Theorem report_misattributes_multi_segment_types :
  let req := {| method := "GET";
                user := Some {| _id := "u1"; escuelaId := "s1"; tipo := "DOCENTE" |};
                query := "{}" |} in
  let key := middleware_key "dashboard_rol" req in
  let c := NodeCache.set 0 key (JObj "resumen") (ttl (config_for "dashboard_rol"))
             (NodeCache.create NodeCache.cache_options) in
  key = "dashboard_rol_u1_s1_{}"
  ∧ first_segment key = "dashboard"
  ∧ typeBreakdown (getCacheStats 1 c) !! "dashboard" = Some (Num 1)
  ∧ typeBreakdown (getCacheStats 1 c) !! "dashboard_rol" = None
  ∧ ttl (config_for "dashboard_rol") = 300
  ∧ ttl (config_for (first_segment key)) = 180
  ∧ first_segment (createCacheKey "promedio_periodo" ["e1"; "a1"; "1"; "2024"]) = "promedio"
  ∧ config_lookup "promedio" cacheConfig = None
  ∧ In "promedio_periodo" (configuredTypes (getCacheStats 1 c)).
Proof. vm_compute. repeat split; auto 20. Qed.

(** The first segment of a key never holds an underscore. *)
Lemma first_segment_free key : free_of underscore (first_segment key) = true.
Proof.
  unfold first_segment. induction key as [|a rest IH]; simpl; [reflexivity|].
  destruct (Ascii.eqb a underscore) eqn:Ha; [reflexivity|].
  destruct (split underscore rest) as [|seg segs]; simpl in *.
  - rewrite Ha. reflexivity.
  - rewrite Ha, IH. reflexivity.
Qed.

(** The first segment is the type exactly when the type has no underscore. *)
Lemma first_segment_of_key type params :
  first_segment (createCacheKey type params) = type
  ↔ free_of underscore type = true.
Proof.
  split.
  - intros <-. apply first_segment_free.
  - intros Hfree. unfold first_segment, createCacheKey.
    change ("_" +:+ join "_" params) with (String underscore (join "_" params)).
    rewrite split_app_delimiter by exact Hfree. reflexivity.
Qed.

(** The configured types the report cannot tell from their first segment. *)
Example multi_segment_types :
  List.filter (fun type => negb (free_of underscore type)) cacheConfig_keys
  = [ "dashboard_rol"; "dashboard_completo"; "eventos_hoy"; "metricas_avanzadas";
      "promedio_periodo"; "promedio_asignatura"; "estadisticas_grupo";
      "cursos_destinatarios"; "lista_mensajes" ].
Proof. reflexivity. Qed.

(** C7, as stated, fails: on a store that has seen no lookup the hit rate is
    not 0. *)
Lemma hitRate_of_fresh_store_not_zero :
  ¬ (∀ now c,
        NodeCache.hits c = 0%N → NodeCache.misses c = 0%N →
        (hitRate (getCacheStats now c) =? 0)%float = true).
Proof.
  intros Hclaim.
  specialize (Hclaim 0 (NodeCache.create NodeCache.cache_options) eq_refl eq_refl).
  vm_compute in Hclaim. discriminate Hclaim.
Qed.

(** C7, amended: the hit rate is [hits / (hits + misses) * 100] in double
    arithmetic, with no guard; when both counters are zero it is the
    quotient 0 / 0 times 100, which is NaN. *)
Theorem hitRate_formula now c :
  hitRate (getCacheStats now c)
  = (number_of_N (NodeCache.hits c)
     / (number_of_N (NodeCache.hits c) + number_of_N (NodeCache.misses c))
     * 100)%float
  ∧ (NodeCache.hits c = 0%N → NodeCache.misses c = 0%N →
     is_nan (hitRate (getCacheStats now c)) = true).
Proof.
  split; [reflexivity|].
  intros Hhits Hmisses. simpl. rewrite Hhits, Hmisses. reflexivity.
Qed.

Lemma hitRate_formula_witness :
  is_nan (hitRate (getCacheStats 0 (NodeCache.create NodeCache.cache_options))) = true.
Proof.
  destruct (hitRate_formula 0 (NodeCache.create NodeCache.cache_options)) as [_ Hnan].
  apply Hnan; reflexivity.
Defined.

(** One miss, then one hit: a hit rate of 50. *)
Example hitRate_example :
  let c0 := NodeCache.create NodeCache.cache_options in
  let c1 := snd (NodeCache.get 0 "k" c0) in
  let c2 := NodeCache.set 0 "k" (JObj "v") 120 c1 in
  let c3 := snd (NodeCache.get 1 "k" c2) in
  NodeCache.hits c3 = 1%N ∧ NodeCache.misses c3 = 1%N
  ∧ hitRate (getCacheStats 1 c3) = 50%float.
Proof. vm_compute. auto. Qed.

(** * Further properties of the cache code *)

(** ** More on strings *)

Lemma startsWith_includes pattern key :
  startsWith pattern key = true → includes pattern key = true.
Proof. intros H. destruct key; simpl in *; rewrite H; reflexivity. Qed.

Lemma includes_empty key : includes EmptyString key = true.
Proof. destruct key; reflexivity. Qed.

(** After a common beginning, [startsWith] looks at the rest. *)
Lemma startsWith_app_cancel common pattern key :
  startsWith (common +:+ pattern) (common +:+ key) = startsWith pattern key.
Proof.
  induction common as [|a common IH]; simpl; [reflexivity|].
  rewrite Ascii.eqb_refl. exact IH.
Qed.

(** Against a string that begins with one of the same length, [startsWith]
    is equality with that beginning. *)
Lemma startsWith_same_length pattern head rest :
  String.length pattern = String.length head →
  startsWith pattern (head +:+ rest) = String.eqb pattern head.
Proof.
  revert head. induction pattern as [|a p IH]; intros [|b h]; simpl;
    try discriminate; try reflexivity.
  intros [= Hlen]. rewrite (IH h Hlen). reflexivity.
Qed.

Lemma append_assoc (a b c : string) : (a +:+ b) +:+ c = a +:+ (b +:+ c).
Proof.
  induction a as [|x a IH]; [reflexivity|].
  change (String x ((a +:+ b) +:+ c) = String x (a +:+ (b +:+ c))).
  rewrite IH. reflexivity.
Qed.

(** A pattern whose first segment is [segment] only fits keys whose first
    segment is [segment]. *)
Lemma startsWith_first_segment segment rest key :
  free_of underscore segment = true →
  startsWith (segment +:+ String underscore rest) key = true →
  first_segment key = segment.
Proof.
  intros Hfree [tail ->]%startsWith_inv. unfold first_segment.
  rewrite append_assoc.
  change (String underscore rest +:+ tail) with (String underscore (rest +:+ tail)).
  rewrite split_app_delimiter by exact Hfree. reflexivity.
Qed.

(** Two strings that agree up to their first delimiter and after it. *)
Lemma delimited_inj (head1 head2 tail1 tail2 : string) :
  free_of underscore head1 = true → free_of underscore head2 = true →
  head1 +:+ String underscore tail1 = head2 +:+ String underscore tail2 →
  head1 = head2 ∧ tail1 = tail2.
Proof.
  intros H1 H2 Heq.
  assert (head1 = head2) as ->.
  { apply (f_equal (split underscore)) in Heq.
    rewrite !split_app_delimiter in Heq by assumption.
    injection Heq as Hhead _. exact Hhead. }
  split; [reflexivity|].
  apply (inj (String.append head2)) in Heq. injection Heq as Htail. exact Htail.
Qed.

(** ** [DashboardCache]: reading, writing and purging *)

Module DashboardCacheMore.
Import DashboardCache DashboardCachePurge DashboardCacheFacts.

(** X1: what [set] stores under a key is what [get] returns for as long as
    the lifetime lasts, whatever the map held under that key before; the
    read leaves the map as the write left it. *)
Theorem set_then_get stored now key d ttlSeconds (cache : gmap string item) :
  now - stored ≤ ttlSeconds * 1000 →
  get now key (set stored key d ttlSeconds cache)
  = (d, set stored key d ttlSeconds cache).
Proof.
  intros Hlive.
  pose (it := {| data := d; timestamp := stored; ttl := ttlSeconds |}).
  assert (set stored key d ttlSeconds cache !! key = Some it) as Hit
    by apply lookup_insert_eq.
  rewrite (get_stored now key _ it Hit). simpl.
  destruct (Z.gtb_spec (now - stored) (ttlSeconds * 1000)); [lia | reflexivity].
Qed.

Lemma set_then_get_witness :
  let stale := set 0 "k" (JStr "old") 1 ∅ in
  get 9000 "k" (set 5000 "k" (JStr "new") 4 stale)
  = (JStr "new", set 5000 "k" (JStr "new") 4 stale).
Proof.
  intros stale. apply (set_then_get 5000 9000 "k" (JStr "new") 4 stale).
  simpl. lia.
Defined.

(** X2: a read touches no other key, adds none, and on a key that is not in
    the map returns [null] and leaves the map alone. *)
Theorem get_frame now key (cache : gmap string item) :
  (∀ other, other ≠ key → snd (get now key cache) !! other = cache !! other)
  ∧ (snd (get now key cache) !! key = None
     ∨ snd (get now key cache) !! key = cache !! key)
  ∧ (cache !! key = None → get now key cache = (JNull, cache)).
Proof.
  unfold get. destruct (cache !! key) as [it|] eqn:Hit.
  - destruct (now - timestamp it >? ttl it * 1000); simpl.
    + split; [|split; [|discriminate]].
      * intros other Hne. apply lookup_delete_ne. congruence.
      * left. apply lookup_delete_eq.
    + split; [reflexivity|]. split; [right; exact Hit | discriminate].
  - simpl. split; [reflexivity|]. split; [left; exact Hit | reflexivity].
Qed.

(** X3: a key that read as [null] reads as [null] again at any time, until
    it is set again: an expired entry is gone for good, also when the clock
    steps back. *)
Theorem null_stays_null now later key (cache : gmap string item) :
  fst (get now key cache) = JNull →
  fst (get later key (snd (get now key cache))) = JNull.
Proof.
  unfold get at 1 3. destruct (cache !! key) as [it|] eqn:Hit.
  - destruct (now - timestamp it >? ttl it * 1000); simpl.
    + intros _. rewrite get_absent by apply lookup_delete_eq. reflexivity.
    + intros Hnull. rewrite (get_stored later key cache it Hit).
      destruct (later - timestamp it >? ttl it * 1000); [reflexivity | exact Hnull].
  - simpl. intros _. rewrite (get_absent later key cache Hit). reflexivity.
Qed.

Lemma null_stays_null_witness :
  let cache := set 0 "k" (JStr "v") 5 ∅ in
  fst (get 1000 "k" (snd (get 6000 "k" cache))) = JNull.
Proof.
  intros cache. apply (null_stays_null 6000 1000 "k" cache). reflexivity.
Defined.

(** The loop of [invalidate], over any list of keys. *)
Lemma invalidate_loop pattern (ks : list string) (cache : gmap string item) key :
  fold_left (fun acc k => if includes pattern k then delete k acc else acc) ks cache
  !! key
  = if includes pattern key && bool_decide (key ∈ ks) then None else cache !! key.
Proof.
  revert cache. induction ks as [|k ks IH]; intros cache; simpl.
  - rewrite andb_false_r. reflexivity.
  - rewrite IH. destruct (includes pattern key) eqn:Hkey; simpl.
    + destruct (decide (key = k)) as [->|Hne].
      * rewrite Hkey, lookup_delete_eq.
        rewrite (bool_decide_eq_true_2 (k ∈ k :: ks)) by left.
        destruct (bool_decide (k ∈ ks)); reflexivity.
      * rewrite (bool_decide_ext (key ∈ k :: ks) (key ∈ ks))
          by (rewrite elem_of_cons; tauto).
        destruct (bool_decide (key ∈ ks)); [reflexivity|].
        destruct (includes pattern k); [|reflexivity].
        apply lookup_delete_ne. congruence.
    + destruct (includes pattern k) eqn:Hk; [|reflexivity].
      apply lookup_delete_ne. intros ->. congruence.
Qed.

(** X4: [invalidate(pattern)] drops every key that contains the pattern and
    keeps every other key with its item. *)
Theorem invalidate_lookup pattern (cache : gmap string item) key :
  invalidate pattern cache !! key
  = if includes pattern key then None else cache !! key.
Proof.
  unfold invalidate. rewrite invalidate_loop.
  destruct (includes pattern key); [|reflexivity]. simpl.
  case_bool_decide as Hin; [reflexivity|].
  destruct (cache !! key) as [it|] eqn:Hit; [|reflexivity].
  exfalso. apply Hin.
  apply list_elem_of_fmap. exists (key, it). split; [reflexivity|].
  apply elem_of_map_to_list. exact Hit.
Qed.

(** X5: the empty pattern is contained in every key, so [invalidate('')]
    empties the map. *)
Theorem invalidate_empty_pattern (cache : gmap string item) :
  invalidate EmptyString cache = ∅.
Proof.
  apply map_eq. intros key.
  rewrite invalidate_lookup, includes_empty, lookup_empty. reflexivity.
Qed.

(** X6: [invalidateUserDashboard] deletes two keys by their exact names. A
    key that goes on after one of the names keeps its item, where
    [invalidate] with that name would drop it. *)
Theorem invalidateUserDashboard_exact userId escuelaId suffix
    (cache : gmap string item) :
  suffix ≠ EmptyString →
  let name := "dashboard_stats_" +:+ userId +:+ "_" +:+ escuelaId in
  invalidateUserDashboard userId escuelaId cache !! name = None
  ∧ invalidateUserDashboard userId escuelaId cache !! (name +:+ suffix)
    = cache !! (name +:+ suffix)
  ∧ invalidate name cache !! (name +:+ suffix) = None.
Proof.
  intros Hsuffix name. unfold invalidateUserDashboard. simpl.
  split; [|split].
  - rewrite lookup_delete_ne by discriminate. apply lookup_delete_eq.
  - rewrite lookup_delete_ne by discriminate. apply lookup_delete_ne.
    intros Heq. apply Hsuffix.
    change (name = name +:+ suffix) in Heq.
    apply (f_equal String.length) in Heq. rewrite length_append in Heq.
    destruct suffix; [reflexivity | simpl in Heq; lia].
  - rewrite invalidate_lookup.
    rewrite (startsWith_includes name (name +:+ suffix) (startsWith_app name suffix)).
    reflexivity.
Qed.

Lemma invalidateUserDashboard_exact_witness :
  let cache := set 0 "dashboard_stats_u1_s1_v2" (JObj "stats") 120 ∅ in
  invalidateUserDashboard "u1" "s1" cache !! "dashboard_stats_u1_s1_v2"
  = cache !! "dashboard_stats_u1_s1_v2"
  ∧ invalidate "dashboard_stats_u1_s1" cache !! "dashboard_stats_u1_s1_v2" = None.
Proof.
  intros cache.
  destruct (invalidateUserDashboard_exact "u1" "s1" "_v2" cache) as (_ & Hkept & Hgone).
  - discriminate.
  - split; [exact Hkept | exact Hgone].
Defined.

End DashboardCacheMore.

(** ** The shared store: writes, reads and bulk deletes *)

Module NodeCacheMore.
Import NodeCache NodeCacheFacts.

Lemma find_entry_app key es1 es2 :
  find_entry key (es1 ++ es2)
  = match find_entry key es1 with
    | Some e => Some e
    | None => find_entry key es2
    end.
Proof.
  induction es1 as [|[k e] es1 IH]; simpl; [reflexivity|].
  destruct (String.eqb k key); [reflexivity | exact IH].
Qed.

Lemma find_entry_tl key es :
  find_entry key es = None → find_entry key (tl es) = None.
Proof.
  destruct es as [|[k e] es]; simpl; [exact id|].
  destruct (String.eqb k key); [discriminate | exact id].
Qed.

(** What [set] wrote is the entry of the key. *)
Lemma find_entry_set now key v ttl c :
  find_entry key (entries (set now key v ttl c))
  = Some {| value := v; storedAt := now; ttlSeconds := ttl |}.
Proof.
  unfold set. simpl. rewrite find_entry_app.
  destruct (find_entry key (entries c)) as [e|] eqn:Hfind.
  - rewrite find_entry_remove, String.eqb_refl. simpl.
    rewrite String.eqb_refl. reflexivity.
  - assert (find_entry key
              (if (maxKeys (opts c) <=? length (entries c))%nat
               then tl (entries c) else entries c) = None) as ->.
    { destruct (maxKeys (opts c) <=? length (entries c))%nat;
        [apply find_entry_tl|]; exact Hfind. }
    simpl. rewrite String.eqb_refl. reflexivity.
Qed.

Lemma get_peek now key c : fst (get now key c) = peek now key c.
Proof.
  unfold get, peek. destruct (find_entry key (entries c)) as [e|]; [|reflexivity].
  destruct (expired now e); reflexivity.
Qed.

(** Once expired, expired at every later time. *)
Lemma expired_later now later e :
  now ≤ later → expired now e = true → expired later e = true.
Proof. unfold expired. rewrite !Z.ltb_lt. lia. Qed.

Lemma existsb_eqb_filter (sel : string → bool) key ks :
  existsb (String.eqb key) (List.filter sel ks)
  = sel key && existsb (String.eqb key) ks.
Proof.
  induction ks as [|k ks IH]; simpl; [rewrite andb_false_r; reflexivity|].
  destruct (String.eqb_spec key k) as [<-|Hne].
  - destruct (sel key) eqn:Hsel; simpl.
    + rewrite String.eqb_refl. reflexivity.
    + rewrite IH. reflexivity.
  - destruct (sel k); simpl; [|exact IH].
    destruct (String.eqb_spec key k); [contradiction | exact IH].
Qed.

Lemma existsb_eqb_app key ks1 ks2 :
  existsb (String.eqb key) (ks1 ++ ks2)
  = existsb (String.eqb key) ks1 || existsb (String.eqb key) ks2.
Proof. apply existsb_app. Qed.

Lemma existsb_eqb_In key ks : In key ks → existsb (String.eqb key) ks = true.
Proof.
  intros Hin. apply existsb_exists. exists key. split; [exact Hin|].
  apply String.eqb_refl.
Qed.

(** [del_keys]: the named keys lose their entries, every other key keeps
    its entry, and the live keys are the former ones that were not named. *)
Lemma del_keys_find ks c key :
  find_entry key (entries (del_keys ks c))
  = if existsb (String.eqb key) ks then None else find_entry key (entries c).
Proof.
  unfold del_keys. rewrite entries_fold_del.
  rewrite (find_entry_filter (fun k => negb (existsb (String.eqb k) ks))).
  destruct (existsb (String.eqb key) ks); reflexivity.
Qed.

Lemma del_keys_keys now ks c :
  keys now (del_keys ks c)
  = List.filter (fun key => negb (existsb (String.eqb key) ks)) (keys now c).
Proof.
  unfold del_keys, keys. rewrite entries_fold_del.
  rewrite filter_map_fst, !filter_twice. f_equal.
  apply List.filter_ext. intros [k e]. simpl. apply andb_comm.
Qed.

(** Deleting in rounds is deleting the rounds' keys at once. *)
Lemma del_keys_rounds {A} (round : A → list string) (rounds : list A) c :
  fold_left (fun c' a => del_keys (round a) c') rounds c
  = del_keys (flat_map round rounds) c.
Proof.
  revert c. induction rounds as [|a rounds IH]; intros c; simpl; [reflexivity|].
  rewrite IH. unfold del_keys. rewrite fold_left_app. reflexivity.
Qed.

Lemma existsb_eqb_rounds {A} (sel : A → string → bool) (rounds : list A) key ks :
  existsb (String.eqb key) (flat_map (fun a => List.filter (sel a) ks) rounds)
  = existsb (fun a => sel a key) rounds && existsb (String.eqb key) ks.
Proof.
  induction rounds as [|a rounds IH]; simpl; [reflexivity|].
  rewrite existsb_eqb_app, existsb_eqb_filter, IH.
  destruct (sel a key), (existsb (fun a => sel a key) rounds),
    (existsb (String.eqb key) ks); reflexivity.
Qed.

(** Deleting the keys of a snapshot of the live keys that a selector picks. *)
Lemma del_selected now (sel : string → bool) c :
  let c' := del_keys (List.filter sel (keys now c)) c in
  keys now c' = List.filter (fun key => negb (sel key)) (keys now c)
  ∧ (∀ key, sel key = false →
            find_entry key (entries c') = find_entry key (entries c))
  ∧ (∀ key, sel key = true → peek now key c' = None).
Proof.
  cbv zeta.
  assert (keys now (del_keys (List.filter sel (keys now c)) c)
          = List.filter (fun key => negb (sel key)) (keys now c)) as Hkeys.
  { rewrite del_keys_keys. apply List.filter_ext_in. intros key Hin.
    rewrite existsb_eqb_filter, (existsb_eqb_In key _ Hin), andb_true_r.
    reflexivity. }
  split; [exact Hkeys|]. split.
  - intros key Hsel. rewrite del_keys_find, existsb_eqb_filter, Hsel. reflexivity.
  - intros key Hsel.
    destruct (peek now key _) as [v|] eqn:Hpeek; [|reflexivity].
    apply peek_in_keys in Hpeek. rewrite Hkeys in Hpeek.
    apply List.filter_In in Hpeek as [_ Hout]. rewrite Hsel in Hout. discriminate.
Qed.

End NodeCacheMore.

(** ** The read-through helper: hits *)

Section Memoization.
Import NodeCache NodeCacheFacts NodeCacheMore.

Context {W : Type}.
Variable clock : W → Z.

(** With a live truthy entry the fetch function is not run. *)
Lemma getOrSetCache_hit key ttl (fetchFunction : fetcher W) (rt : runtime W) e :
  find_entry key (entries (cache rt)) = Some e →
  expired (clock (world rt)) e = false →
  truthy (value e) = true →
  getOrSetCache clock key ttl fetchFunction rt
  = (Async.Resolved (value e),
     {| cache := count_hit (cache rt); world := world rt |}).
Proof.
  intros Hfind Hlive Htruthy. rewrite getOrSetCache_run. cbv zeta.
  unfold looked_up. rewrite (looked_up_live _ key (cache rt) e Hfind Hlive).
  simpl. rewrite Htruthy. reflexivity.
Qed.

End Memoization.

(** X7: a truthy result that [getOrSetCache] fetched on a miss is served
    from the store for as long as the lifetime given with it lasts: a later
    call for the key, made no more than [ttl] after the result was stored,
    resolves to that result and does not run its fetch function (the world
    is as it was). Once the lifetime is over the fetch function runs
    again. *)
Theorem getOrSetCache_memoizes {W} (clock : W → Z) key ttl
    (fetchFunction : fetcher W) (rt : runtime W) result w :
  truthy (looked_up (clock (world rt)) key (cache rt)) = false →
  fetchFunction (world rt) = (Async.Resolved result, w) →
  truthy result = true →
  ∃ stored,
    getOrSetCache clock key ttl fetchFunction rt
    = (Async.Resolved result, {| cache := stored; world := w |})
    ∧ ∀ later ttl' (again : fetcher W),
        (clock later - clock w ≤ ttl →
           getOrSetCache clock key ttl' again {| cache := stored; world := later |}
           = (Async.Resolved result,
              {| cache := NodeCache.count_hit stored; world := later |}))
        ∧ (clock later - clock w > ttl →
           fst (getOrSetCache clock key ttl' again {| cache := stored; world := later |})
           = fst (again later)).
Proof.
  intros Hmiss Hfetch Htruthy.
  exists (NodeCache.set (clock w) key result ttl
            (snd (NodeCache.get (clock (world rt)) key (cache rt)))).
  split.
  - rewrite getOrSetCache_run. cbv zeta. rewrite Hmiss, Hfetch. reflexivity.
  - intros later ttl' again.
    pose (e := {| NodeCache.value := result; NodeCache.storedAt := clock w;
                  NodeCache.ttlSeconds := ttl |}).
    pose proof (NodeCacheMore.find_entry_set (clock w) key result ttl
                  (snd (NodeCache.get (clock (world rt)) key (cache rt)))) as Hfind.
    split.
    + intros Hwithin.
      apply (getOrSetCache_hit clock key ttl' again
               {| cache := NodeCache.set (clock w) key result ttl
                             (snd (NodeCache.get (clock (world rt)) key (cache rt)));
                  world := later |} e Hfind); [|exact Htruthy].
      unfold NodeCache.expired. simpl. apply Z.ltb_ge. lia.
    + intros Hover. rewrite getOrSetCache_run. cbv zeta. cbn [cache world].
      unfold looked_up. rewrite NodeCacheMore.get_peek.
      unfold NodeCache.peek. rewrite Hfind.
      assert (NodeCache.expired (clock later) e = true) as Hexp
        by (unfold NodeCache.expired; simpl; apply Z.ltb_lt; lia).
      fold e. rewrite Hexp. simpl.
      destruct (again later) as [[r|r] w']; reflexivity.
Qed.

Lemma getOrSetCache_memoizes_witness :
  ∃ stored,
    getOrSetCache (fun calls : nat => Z.of_nat calls) "acudientes_e1" 300
      counting_fetch {| cache := NodeCache.create NodeCache.cache_options; world := 5%nat |}
    = (Async.Resolved (JNum 5), {| cache := stored; world := 6%nat |})
    ∧ fst (getOrSetCache (fun calls : nat => Z.of_nat calls) "acudientes_e1" 300
             counting_fetch {| cache := stored; world := 100%nat |})
      = Async.Resolved (JNum 5).
Proof.
  destruct (getOrSetCache_memoizes (fun calls : nat => Z.of_nat calls)
              "acudientes_e1" 300 counting_fetch
              {| cache := NodeCache.create NodeCache.cache_options; world := 5%nat |}
              (JNum 5) 6%nat) as (stored & Hrun & Hlater);
    [reflexivity | reflexivity | reflexivity |].
  exists stored. split; [exact Hrun|].
  destruct (Hlater 100%nat 300 counting_fetch) as [Hwithin _].
  rewrite Hwithin; [reflexivity | simpl; lia].
Defined.

(** ** The cache middleware *)



(** X9: on one route, two authenticated requests share a key only when the
    user, the school and the query are the same, ids being free of the
    underscore: no user is served what was stored for another. *)
Theorem middleware_key_separates_users cacheType req1 req2 u1 u2 :
  user req1 = Some u1 → user req2 = Some u2 →
  free_of underscore (_id u1) = true → free_of underscore (escuelaId u1) = true →
  free_of underscore (_id u2) = true → free_of underscore (escuelaId u2) = true →
  middleware_key cacheType req1 = middleware_key cacheType req2 →
  _id u1 = _id u2 ∧ escuelaId u1 = escuelaId u2 ∧ query req1 = query req2.
Proof.
  intros Hu1 Hu2 Hid1 Hesc1 Hid2 Hesc2 Hkey.
  unfold middleware_key in Hkey. rewrite Hu1, Hu2 in Hkey.
  apply (inj (String.append cacheType)) in Hkey.
  apply (inj (String.append "_")) in Hkey.
  rewrite !append_assoc in Hkey.
  apply delimited_inj in Hkey as [Hid Hrest]; [|assumption..].
  apply delimited_inj in Hrest as [Hesc Hquery]; [|assumption..].
  auto.
Qed.

Lemma middleware_key_separates_users_witness :
  let u := {| _id := "u1"; escuelaId := "s1"; tipo := "PADRE" |} in
  let req := {| method := "GET"; user := Some u; query := "{}" |} in
  _id u = _id u ∧ escuelaId u = escuelaId u ∧ query req = query req.
Proof.
  intros u req.
  apply (middleware_key_separates_users "dashboard" req req u u); reflexivity.
Defined.

(** ** Invalidation seen from the routes *)

Section InvalidationAndRoutes.
Import NodeCache NodeCacheFacts NodeCacheMore.

(** The key of a request is in the scope of its own user on its own route. *)
Lemma middleware_key_in_scope cacheType req u :
  user req = Some u →
  in_scope (_id u) (escuelaId u) cacheType (middleware_key cacheType req) = true.
Proof.
  intros Hu. unfold in_scope, createCacheKey, middleware_key. rewrite Hu.
  rewrite (startsWith_app_cancel cacheType), (startsWith_app_cancel "_").
  change (join "_" [_id u; escuelaId u]) with (_id u +:+ "_" +:+ escuelaId u).
  apply startsWith_app.
Qed.

(** A key in the scope of an invalidation cannot be read afterwards, at the
    time of the invalidation or later. *)
Lemma invalidated_key_misses now later userId escuelaId types key c :
  now ≤ later →
  in_scope_of userId escuelaId types key = true →
  fst (get later key
         (fold_left (fun c' t => invalidateCache now t userId escuelaId c') types c))
  = None.
Proof.
  intros Hlater Hscope. rewrite get_peek.
  destruct (invalidate_types_scope now userId escuelaId types c) as [Hkeys _].
  cbv zeta in Hkeys.
  set (c' := fold_left _ types c) in *.
  unfold peek. destruct (find_entry key (entries c')) as [e|] eqn:Hfind; [|reflexivity].
  destruct (expired later e) eqn:Hexp; [reflexivity|]. exfalso.
  assert (expired now e = false) as Hnow.
  { destruct (expired now e) eqn:Hnow; [|reflexivity].
    rewrite (expired_later now later e Hlater Hnow) in Hexp. discriminate. }
  assert (peek now key c' = Some (value e)) as Hpeek
    by (unfold peek; rewrite Hfind, Hnow; reflexivity).
  apply peek_in_keys in Hpeek. rewrite Hkeys in Hpeek.
  apply List.filter_In in Hpeek as [_ Hout]. rewrite Hscope in Hout. discriminate.
Qed.

End InvalidationAndRoutes.

(** X10: after [invalidateDashboardCache(userId, escuelaId)] a GET of that
    user on any of the five dashboard routes, whatever its query, is not
    answered from the store, at the time of the invalidation or later: the
    middleware hands it on to the handler. *)
Theorem invalidateDashboardCache_forces_miss now later cacheType req u c :
  In cacheType dashboardTypes →
  method req = "GET" →
  user req = Some u →
  now ≤ later →
  fst (cacheMiddleware cacheType later req
         (invalidateDashboardCache now (_id u) (escuelaId u) c))
  = Intercepted (middleware_key cacheType req) (ttl (config_for cacheType)).
Proof.
  intros Htype Hmethod Hu Hlater.
  assert (in_scope_of (_id u) (escuelaId u) dashboardTypes
            (middleware_key cacheType req) = true) as Hscope.
  { apply existsb_exists. exists cacheType. split; [exact Htype|].
    apply middleware_key_in_scope, Hu. }
  pose proof (invalidated_key_misses now later (_id u) (escuelaId u) dashboardTypes
                (middleware_key cacheType req) c Hlater Hscope) as Hmiss.
  fold (invalidateDashboardCache now (_id u) (escuelaId u) c) in Hmiss.
  revert Hmiss. generalize (invalidateDashboardCache now (_id u) (escuelaId u) c).
  intros c' Hmiss. unfold cacheMiddleware. rewrite Hmethod. simpl.
  destruct (NodeCache.get later (middleware_key cacheType req) c') as [found c1].
  simpl in Hmiss. subst found. reflexivity.
Qed.

Lemma invalidateDashboardCache_forces_miss_witness :
  let u := {| _id := "u1"; escuelaId := "s1"; tipo := "DOCENTE" |} in
  let req := {| method := "GET"; user := Some u; query := "{}" |} in
  let c := NodeCache.set 0 "dashboard_rol_u1_s1_{}" (JObj "resumen") 300
             (NodeCache.create NodeCache.cache_options) in
  fst (cacheMiddleware "dashboard_rol" 1 req c) = ServedFromCache (JObj "resumen")
  ∧ fst (cacheMiddleware "dashboard_rol" 2 req (invalidateDashboardCache 1 "u1" "s1" c))
    = Intercepted "dashboard_rol_u1_s1_{}" 300.
Proof.
  intros u req c. split; [reflexivity|].
  apply (invalidateDashboardCache_forces_miss 1 2 "dashboard_rol" req u c).
  - right. left. reflexivity.
  - reflexivity.
  - reflexivity.
  - lia.
Defined.

(** X11: [invalidarCacheDashboard(usuarioId, escuelaId)], which invalidates
    the type [dashboard] alone, leaves the entries of the four other
    dashboard routes where they are, for every user and query; the user id
    is free of the underscore and is neither [rol] nor [completo]. *)
Theorem invalidarCacheDashboard_keeps_other_routes now usuarioId escuela
    cacheType req c :
  free_of underscore usuarioId = true →
  usuarioId ≠ "rol" → usuarioId ≠ "completo" →
  In cacheType ["dashboard_rol"; "dashboard_completo"; "eventos_hoy";
                "metricas_avanzadas"] →
  NodeCache.find_entry (middleware_key cacheType req)
    (NodeCache.entries (invalidarCacheDashboard now usuarioId escuela c))
  = NodeCache.find_entry (middleware_key cacheType req) (NodeCache.entries c).
Proof.
  intros Hfree Hrol Hcompleto Htype.
  destruct (invalidateCache_scope now usuarioId escuela "dashboard" c) as [_ Hkept].
  apply Hkept. clear Hkept. unfold in_scope, createCacheKey, middleware_key.
  set (userKey := match user req with
                  | Some u => _id u +:+ "_" +:+ escuelaId u
                  | None => "public"
                  end).
  change (join "_" [usuarioId; escuela])
    with (usuarioId +:+ String underscore escuela).
  assert (∀ segment rest,
            usuarioId ≠ segment → free_of underscore segment = true →
            startsWith ("dashboard" +:+ "_" +:+ usuarioId +:+ String underscore escuela)
                       ("dashboard_" +:+ segment +:+ String underscore rest)
            = false) as Hother.
  { intros segment rest Hne Hseg.
    change ("dashboard" +:+ "_" +:+ usuarioId +:+ String underscore escuela)
      with ("dashboard_" +:+ usuarioId +:+ String underscore escuela).
    rewrite (startsWith_app_cancel "dashboard_").
    destruct (startsWith _ _) eqn:Hstarts; [|reflexivity].
    apply startsWith_first_segment in Hstarts; [|exact Hfree].
    unfold first_segment in Hstarts.
    rewrite split_app_delimiter in Hstarts by exact Hseg.
    simpl in Hstarts. congruence. }
  simpl in Htype. destruct Htype as [<-|[<-|[<-|[<-|[]]]]].
  - apply (Hother "rol" (userKey +:+ "_" +:+ query req)); [exact Hrol | reflexivity].
  - apply (Hother "completo" (userKey +:+ "_" +:+ query req));
      [exact Hcompleto | reflexivity].
  - reflexivity.
  - reflexivity.
Qed.

Lemma invalidarCacheDashboard_keeps_other_routes_witness :
  let req := {| method := "GET";
                user := Some {| _id := "u1"; escuelaId := "s1"; tipo := "DOCENTE" |};
                query := "{}" |} in
  let c := NodeCache.set 0 "dashboard_rol_u1_s1_{}" (JObj "resumen") 300
             (NodeCache.create NodeCache.cache_options) in
  NodeCache.find_entry (middleware_key "dashboard_rol" req)
    (NodeCache.entries (invalidarCacheDashboard 1 "u1" "s1" c))
  = Some {| NodeCache.value := JObj "resumen"; NodeCache.storedAt := 0;
            NodeCache.ttlSeconds := 300 |}.
Proof.
  intros req c.
  rewrite (invalidarCacheDashboard_keeps_other_routes 1 "u1" "s1"
             "dashboard_rol" req c).
  - reflexivity.
  - reflexivity.
  - discriminate.
  - discriminate.
  - left. reflexivity.
Defined.

(** ** The statistics report: the breakdown *)

Section Breakdown.

Lemma tally_key_lookup (counts : gmap string nat) key type :
  tally_key counts key !! type
  = if String.eqb (first_segment key) type
    then Some (default 0 (counts !! type) + 1)%nat
    else counts !! type.
Proof.
  unfold tally_key. destruct (String.eqb_spec (first_segment key) type) as [<-|Hne].
  - apply lookup_insert_eq.
  - apply lookup_insert_ne. exact Hne.
Qed.

Lemma tally_key_total (counts : gmap string nat) key :
  tally_total (tally_key counts key) = S (tally_total counts).
Proof.
  unfold tally_key, tally_total.
  set (type := first_segment key).
  destruct (counts !! type) as [n|] eqn:Hn; simpl.
  - rewrite <- (insert_delete_eq counts type (n + 1)%nat).
    rewrite map_fold_insert_L; [| intros; lia | apply lookup_delete_eq].
    rewrite (map_fold_delete_L _ _ type n counts); [lia | intros; lia | exact Hn].
  - rewrite map_fold_insert_L; [lia | intros; lia | exact Hn].
Qed.

Lemma tally_total_fold allKeys (counts : gmap string nat) :
  tally_total (fold_left tally_key allKeys counts)
  = (length allKeys + tally_total counts)%nat.
Proof.
  revert counts. induction allKeys as [|key allKeys IH]; intros counts; simpl.
  - reflexivity.
  - rewrite IH, tally_key_total. lia.
Qed.

Lemma tally_lookup_fold allKeys (counts : gmap string nat) type :
  fold_left tally_key allKeys counts !! type
  = match filed_under type allKeys with
    | O => counts !! type
    | S n => Some (default 0 (counts !! type) + S n)%nat
    end.
Proof.
  revert counts. unfold filed_under.
  induction allKeys as [|key allKeys IH]; intros counts; simpl; [reflexivity|].
  rewrite IH, tally_key_lookup.
  destruct (String.eqb (first_segment key) type); simpl.
  - destruct (length _); simpl; f_equal; lia.
  - reflexivity.
Qed.

(** On a key whose first segment is not the name of an inherited member,
    and on an object that holds numbers, the loop body is the tally. *)
Lemma count_key_tally (counts : gmap string nat) key :
  inherited_text (first_segment key) = None →
  count_key (Num <$> counts) key = Num <$> tally_key counts key.
Proof.
  intros Hordinary. unfold count_key, tally_key, js_get, js_set.
  set (type := first_segment key) in *.
  assert (String.eqb type "__proto__" = false) as ->.
  { apply String.eqb_neq. intros Hproto. rewrite Hproto in Hordinary.
    discriminate Hordinary. }
  rewrite lookup_fmap, Hordinary, fmap_insert.
  destruct (counts !! type) as [n|]; reflexivity.
Qed.

Lemma count_key_tally_fold allKeys (counts : gmap string nat) :
  (∀ key, In key allKeys → inherited_text (first_segment key) = None) →
  fold_left count_key allKeys (Num <$> counts)
  = Num <$> fold_left tally_key allKeys counts.
Proof.
  revert counts. induction allKeys as [|key allKeys IH]; intros counts Hordinary;
    simpl; [reflexivity|].
  rewrite count_key_tally by (apply Hordinary; left; reflexivity).
  apply IH. intros k Hk. apply Hordinary. right. exact Hk.
Qed.

Lemma breakdown_total_numbers (counts : gmap string nat) :
  breakdown_total (Num <$> counts) = tally_total counts.
Proof. unfold breakdown_total, tally_total. apply map_fold_fmap. Qed.

End Breakdown.

(** X12: when no live key has the name of a member of [Object.prototype]
    (constructor, toString, valueOf, ...) as its first segment, the counts
    of the breakdown add up to the number of keys, and the count filed under
    a type is the number of live keys whose first segment is that type, a
    type with no such key having no count. *)
Theorem getCacheStats_breakdown now c :
  (∀ key, In key (NodeCache.keys now c) →
          inherited_text (first_segment key) = None) →
  breakdown_total (typeBreakdown (getCacheStats now c)) = keys (getCacheStats now c)
  ∧ ∀ type,
      typeBreakdown (getCacheStats now c) !! type
      = match filed_under type (NodeCache.keys now c) with
        | O => None
        | S n => Some (Num (S n))
        end.
Proof.
  intros Hordinary. simpl.
  rewrite <- (fmap_empty (M:=gmap string) Num).
  rewrite (count_key_tally_fold _ ∅ Hordinary). split.
  - rewrite breakdown_total_numbers, tally_total_fold. unfold tally_total.
    rewrite map_fold_empty. lia.
  - intros type. rewrite lookup_fmap, tally_lookup_fold, lookup_empty.
    destruct (filed_under type (NodeCache.keys now c)); reflexivity.
Qed.

Lemma getCacheStats_breakdown_witness :
  let c := NodeCache.set 2 "dashboard_u2_s1_{}" (JObj "c") 180
             (NodeCache.set 1 "dashboard_rol_u1_s1_{}" (JObj "b") 300
                (NodeCache.set 0 "mensajes_u1_s1_{}" (JObj "a") 120
                   (NodeCache.create NodeCache.cache_options))) in
  breakdown_total (typeBreakdown (getCacheStats 3 c)) = 3%nat
  ∧ typeBreakdown (getCacheStats 3 c) !! "dashboard" = Some (Num 2)
  ∧ typeBreakdown (getCacheStats 3 c) !! "cursos" = None.
Proof.
  intros c.
  destruct (getCacheStats_breakdown 3 c) as [Htotal Hcount].
  - intros key Hin. simpl in Hin.
    destruct Hin as [<-|[<-|[<-|[]]]]; reflexivity.
  - split; [exact Htotal|]. split; [apply (Hcount "dashboard") | apply (Hcount "cursos")].
Defined.

(** A key whose first segment is the name of an inherited member: the report
    holds a string under it, not a count. *)
Example getCacheStats_inherited_name :
  let c := NodeCache.set 0 "constructor_u1_s1_{}" (JObj "a") 120
             (NodeCache.create NodeCache.cache_options) in
  typeBreakdown (getCacheStats 1 c) !! "constructor"
  = Some (Str "function Object() { [native code] }1").
Proof. vm_compute. reflexivity. Qed.

(** ** Keys and patterns of the services *)

Section ServiceKeys.
Import NodeCache NodeCacheFacts NodeCacheMore.

Lemma startsWith_refl s : startsWith s s = true.
Proof.
  induction s as [|a s IH]; simpl; [reflexivity|].
  rewrite Ascii.eqb_refl. exact IH.
Qed.

Lemma includes_app_r pattern head key :
  includes pattern key = true → includes pattern (head +:+ key) = true.
Proof.
  intros Hkey. induction head as [|a head IH]; [exact Hkey|].
  change (includes pattern (String a (head +:+ key)) = true).
  simpl. rewrite IH. apply orb_true_r.
Qed.

(** A string is contained in whatever is built around it. *)
Lemma includes_between pattern head tail :
  includes pattern (head +:+ pattern +:+ tail) = true.
Proof. apply includes_app_r, startsWith_includes, startsWith_app. Qed.

Lemma free_of_app_delimiter head tail :
  free_of underscore (head +:+ String underscore tail) = false.
Proof.
  induction head as [|a head IH]; [reflexivity|].
  change (free_of underscore (String a (head +:+ String underscore tail)) = false).
  simpl. rewrite IH. apply andb_false_r.
Qed.

(** The key of a type for a user, a school and further params is in the
    scope of the type for that user and school. *)
Lemma createCacheKey_in_scope userId escuela type more :
  in_scope userId escuela type (createCacheKey type (userId :: escuela :: more)) = true.
Proof.
  unfold in_scope, createCacheKey.
  rewrite (startsWith_app_cancel type), (startsWith_app_cancel "_").
  destruct more as [|p more].
  - apply startsWith_refl.
  - change (join "_" (userId :: escuela :: p :: more))
      with (userId +:+ "_" +:+ escuela +:+ "_" +:+ join "_" (p :: more)).
    change (join "_" [userId; escuela]) with (userId +:+ "_" +:+ escuela).
    rewrite (startsWith_app_cancel userId), (startsWith_app_cancel "_").
    apply startsWith_app.
Qed.

(** A dashboard pattern for one user id does not fit a dashboard key whose
    next segment is another. *)
Lemma dashboard_pattern_other_segment userId rest segment tail :
  free_of underscore userId = true → free_of underscore segment = true →
  userId ≠ segment →
  startsWith ("dashboard_" +:+ userId +:+ String underscore rest)
             ("dashboard_" +:+ segment +:+ String underscore tail)
  = false.
Proof.
  intros Hfree Hseg Hne. rewrite (startsWith_app_cancel "dashboard_").
  destruct (startsWith _ _) eqn:Hstarts; [|reflexivity].
  apply startsWith_first_segment in Hstarts; [|exact Hfree].
  unfold first_segment in Hstarts.
  rewrite split_app_delimiter in Hstarts by exact Hseg.
  simpl in Hstarts. congruence.
Qed.

(** Deleting keys that are, among the live keys, those a selector picks. *)
Lemma del_snapshot now (sel : string → bool) ks c :
  (∀ key, existsb (String.eqb key) ks
          = sel key && existsb (String.eqb key) (keys now c)) →
  keys now (del_keys ks c) = List.filter (fun key => negb (sel key)) (keys now c)
  ∧ (∀ key, sel key = false →
            find_entry key (entries (del_keys ks c)) = find_entry key (entries c))
  ∧ (∀ key, sel key = true → peek now key (del_keys ks c) = None).
Proof.
  intros Hks.
  assert (keys now (del_keys ks c)
          = List.filter (fun key => negb (sel key)) (keys now c)) as Hkeys.
  { rewrite del_keys_keys. apply List.filter_ext_in. intros key Hin.
    rewrite Hks, (existsb_eqb_In key _ Hin), andb_true_r. reflexivity. }
  split; [exact Hkeys|]. split.
  - intros key Hsel. rewrite del_keys_find, Hks, Hsel. reflexivity.
  - intros key Hsel.
    destruct (peek now key _) as [v|] eqn:Hpeek; [|reflexivity].
    apply peek_in_keys in Hpeek. rewrite Hkeys in Hpeek.
    apply List.filter_In in Hpeek as [_ Hout]. rewrite Hsel in Hout. discriminate.
Qed.

(** The same for rounds of deletions that all filter one snapshot. *)
Lemma del_rounds_snapshot {A} now (sel : A → string → bool) (rounds : list A) c :
  let c' := fold_left
              (fun c' a => del_keys (List.filter (sel a) (keys now c)) c')
              rounds c in
  let picked key := existsb (fun a => sel a key) rounds in
  keys now c' = List.filter (fun key => negb (picked key)) (keys now c)
  ∧ (∀ key, picked key = false →
            find_entry key (entries c') = find_entry key (entries c))
  ∧ (∀ key, picked key = true → peek now key c' = None).
Proof.
  cbv zeta.
  rewrite (del_keys_rounds (fun a => List.filter (sel a) (keys now c)) rounds c).
  apply del_snapshot. intros key. apply existsb_eqb_rounds.
Qed.

End ServiceKeys.

(** ** [MensajeService]: what a new message invalidates *)

Module MensajeServiceFacts.
Import MensajeService.

(** X13: after [invalidarCacheMensajes(usuarioId, escuelaId)] the recipient
    list of that user in that school, for every search text, and the course
    list cannot be read from the store, then or later: the next
    [getPosiblesDestinatarios] and [getCursosPosiblesDestinatarios] fetch
    again. *)
Theorem invalidarCacheMensajes_drops_destinatarios now later usuarioId escuela c :
  now ≤ later →
  (∀ query,
      fst (NodeCache.get later (destinatarios_key usuarioId escuela query)
             (invalidarCacheMensajes now usuarioId escuela c)) = None)
  ∧ fst (NodeCache.get later (cursos_destinatarios_key usuarioId escuela)
           (invalidarCacheMensajes now usuarioId escuela c)) = None.
Proof.
  intros Hlater. unfold invalidarCacheMensajes, invalidateRelatedCache. split.
  - intros query. apply invalidated_key_misses; [exact Hlater|].
    apply existsb_exists. exists "destinatarios".
    split; [simpl; tauto | apply createCacheKey_in_scope].
  - apply invalidated_key_misses; [exact Hlater|].
    apply existsb_exists. exists "cursos_destinatarios".
    split; [simpl; tauto | apply createCacheKey_in_scope].
Qed.

Lemma invalidarCacheMensajes_drops_destinatarios_witness :
  let c := NodeCache.set 0 (destinatarios_key "u1" "s1" "ana") (JObj "lista") 120
             (NodeCache.create NodeCache.cache_options) in
  fst (NodeCache.get 1 (destinatarios_key "u1" "s1" "ana") c) = Some (JObj "lista")
  ∧ fst (NodeCache.get 1 (destinatarios_key "u1" "s1" "ana")
           (invalidarCacheMensajes 1 "u1" "s1" c)) = None.
Proof.
  intros c. split; [reflexivity|].
  destruct (invalidarCacheMensajes_drops_destinatarios 1 1 "u1" "s1" c) as [Hdest _];
    [lia|].
  apply Hdest.
Defined.

(** X14: [invalidarCacheMensajes] names the type [acudientes], but the keys
    of [enviarCopiaAcudientes] hold the student id alone and are never in
    its scope (the id being free of the underscore); nor are the keys of
    [obtenerMensajes], whose type [lista_mensajes] it does not name. Both
    keep their entries. *)
Theorem invalidarCacheMensajes_keeps_acudientes now usuarioId escuela c :
  (∀ estudianteId,
      free_of underscore estudianteId = true →
      NodeCache.find_entry (acudientes_key estudianteId)
        (NodeCache.entries (invalidarCacheMensajes now usuarioId escuela c))
      = NodeCache.find_entry (acudientes_key estudianteId) (NodeCache.entries c))
  ∧ (∀ userId filtros,
        NodeCache.find_entry (lista_mensajes_key userId filtros)
          (NodeCache.entries (invalidarCacheMensajes now usuarioId escuela c))
        = NodeCache.find_entry (lista_mensajes_key userId filtros)
            (NodeCache.entries c)).
Proof.
  unfold invalidarCacheMensajes, invalidateRelatedCache.
  destruct (invalidate_types_scope now usuarioId escuela
              ["mensajes"; "destinatarios"; "cursos_destinatarios"; "acudientes";
               "dashboard"; "dashboard_completo"] c) as [_ Hkept].
  cbv zeta in Hkept. split.
  - intros estudianteId Hfree. apply Hkept. unfold in_scope_of.
    cbn [existsb]. rewrite !orb_false_iff. repeat split; try reflexivity.
    unfold in_scope, acudientes_key, createCacheKey.
    rewrite (startsWith_app_cancel "acudientes"), (startsWith_app_cancel "_").
    change (join "_" [estudianteId]) with estudianteId.
    change (join "_" [usuarioId; escuela])
      with (usuarioId +:+ String underscore escuela).
    destruct (startsWith _ estudianteId) eqn:Hstarts; [|reflexivity].
    apply startsWith_inv in Hstarts as [rest ->].
    rewrite append_assoc in Hfree.
    change (String underscore escuela +:+ rest)
      with (String underscore (escuela +:+ rest)) in Hfree.
    rewrite free_of_app_delimiter in Hfree. discriminate.
  - intros userId filtros. apply Hkept. reflexivity.
Qed.

Lemma invalidarCacheMensajes_keeps_acudientes_witness :
  let c := NodeCache.set 0 (acudientes_key "e1") (JObj "padres") 300
             (NodeCache.create NodeCache.cache_options) in
  NodeCache.find_entry (acudientes_key "e1")
    (NodeCache.entries (invalidarCacheMensajes 1 "u1" "s1" c))
  = Some {| NodeCache.value := JObj "padres"; NodeCache.storedAt := 0;
            NodeCache.ttlSeconds := 300 |}.
Proof.
  intros c.
  destruct (invalidarCacheMensajes_keeps_acudientes 1 "u1" "s1" c) as [Hkept _].
  rewrite (Hkept "e1"); reflexivity.
Defined.

End MensajeServiceFacts.

(** ** [AcademicService]: invalidation of the academic entries *)

Module AcademicServiceFacts.
Import AcademicService.

(** The scope of [invalidarCacheEstudiante] with a school, on the key of a
    period average. *)
Lemma promedio_periodo_out_of_scope estudianteId asignaturaId escuela periodo anio :
  String.length escuela = String.length asignaturaId →
  escuela ≠ asignaturaId →
  in_scope_of estudianteId escuela tiposRelacionados
    (promedio_periodo_key estudianteId asignaturaId periodo anio) = false.
Proof.
  intros Hlen Hne. unfold in_scope_of, tiposRelacionados.
  cbn [existsb]. rewrite !orb_false_iff. repeat split; try reflexivity.
  unfold in_scope, promedio_periodo_key, createCacheKey.
  rewrite (startsWith_app_cancel "promedio_periodo"), (startsWith_app_cancel "_").
  change (join "_" [estudianteId; asignaturaId; periodo; anio])
    with (estudianteId +:+ "_" +:+ asignaturaId +:+ "_" +:+ periodo +:+ "_" +:+ anio).
  change (join "_" [estudianteId; escuela]) with (estudianteId +:+ "_" +:+ escuela).
  rewrite (startsWith_app_cancel estudianteId), (startsWith_app_cancel "_").
  rewrite (startsWith_same_length escuela asignaturaId _ Hlen).
  apply String.eqb_neq, Hne.
Qed.

Lemma promedio_asignatura_out_of_scope estudianteId asignaturaId escuela anio :
  String.length escuela = String.length asignaturaId →
  escuela ≠ asignaturaId →
  in_scope_of estudianteId escuela tiposRelacionados
    (promedio_asignatura_key estudianteId asignaturaId anio) = false.
Proof.
  intros Hlen Hne. unfold in_scope_of, tiposRelacionados.
  cbn [existsb]. rewrite !orb_false_iff. repeat split; try reflexivity.
  unfold in_scope, promedio_asignatura_key, createCacheKey.
  rewrite (startsWith_app_cancel "promedio_asignatura"), (startsWith_app_cancel "_").
  change (join "_" [estudianteId; asignaturaId; anio])
    with (estudianteId +:+ "_" +:+ asignaturaId +:+ "_" +:+ anio).
  change (join "_" [estudianteId; escuela]) with (estudianteId +:+ "_" +:+ escuela).
  rewrite (startsWith_app_cancel estudianteId), (startsWith_app_cancel "_").
  rewrite (startsWith_same_length escuela asignaturaId _ Hlen).
  apply String.eqb_neq, Hne.
Qed.

Lemma invalidarCacheEstudiante_with_school now estudianteId asignaturaId escuela c :
  escuela ≠ EmptyString →
  invalidarCacheEstudiante now estudianteId asignaturaId (Some escuela) c
  = fold_left (fun c' tipo => invalidateCache now tipo estudianteId escuela c')
              tiposRelacionados c.
Proof.
  intros Hgiven. unfold invalidarCacheEstudiante. simpl optional. simpl truthy.
  apply String.eqb_neq in Hgiven. rewrite Hgiven. reflexivity.
Qed.

(** X15: called with a school id, [invalidarCacheEstudiante] looks for keys
    that begin [type_student_school], while the averages are stored under
    [type_student_subject_...]. A period average and a subject average of
    the student keep their entries whenever the school id and the subject
    id are different strings of one length. *)
Theorem invalidarCacheEstudiante_keeps_promedios now estudianteId asignaturaId
    escuela periodo anio c :
  escuela ≠ EmptyString →
  String.length escuela = String.length asignaturaId →
  escuela ≠ asignaturaId →
  let c' := invalidarCacheEstudiante now estudianteId (Some asignaturaId)
              (Some escuela) c in
  NodeCache.find_entry (promedio_periodo_key estudianteId asignaturaId periodo anio)
    (NodeCache.entries c')
  = NodeCache.find_entry (promedio_periodo_key estudianteId asignaturaId periodo anio)
      (NodeCache.entries c)
  ∧ NodeCache.find_entry (promedio_asignatura_key estudianteId asignaturaId anio)
      (NodeCache.entries c')
    = NodeCache.find_entry (promedio_asignatura_key estudianteId asignaturaId anio)
        (NodeCache.entries c).
Proof.
  intros Hgiven Hlen Hne. cbv zeta.
  rewrite invalidarCacheEstudiante_with_school by exact Hgiven.
  destruct (invalidate_types_scope now estudianteId escuela tiposRelacionados c)
    as [_ Hkept].
  cbv zeta in Hkept. split; apply Hkept.
  - apply promedio_periodo_out_of_scope; assumption.
  - apply promedio_asignatura_out_of_scope; assumption.
Qed.

Lemma invalidarCacheEstudiante_keeps_promedios_witness :
  let key := promedio_periodo_key "e1" "a1" "1" "2024" in
  let c := NodeCache.set 0 key (JObj "promedio") 300
             (NodeCache.create NodeCache.cache_options) in
  NodeCache.find_entry key
    (NodeCache.entries (invalidarCacheEstudiante 1 "e1" (Some "a1") (Some "s1") c))
  = Some {| NodeCache.value := JObj "promedio"; NodeCache.storedAt := 0;
            NodeCache.ttlSeconds := 300 |}.
Proof.
  intros key c.
  destruct (invalidarCacheEstudiante_keeps_promedios 1 "e1" "a1" "s1" "1" "2024" c)
    as [Hperiodo _]; [discriminate | reflexivity | discriminate |].
  etransitivity; [exact Hperiodo | reflexivity].
Defined.

(** X16: called without a school id, [invalidarCacheEstudiante] deletes the
    live keys that contain the student id and the name of one of the six
    types, and no other: the other live keys stay, in their order and with
    their entries. The averages of the student are among the deleted. *)
Theorem invalidarCacheEstudiante_without_school now estudianteId asignaturaId c :
  let c' := invalidarCacheEstudiante now estudianteId asignaturaId None c in
  NodeCache.keys now c'
  = List.filter (fun key => negb (names_student estudianteId key))
                (NodeCache.keys now c)
  ∧ (∀ key, names_student estudianteId key = false →
            NodeCache.find_entry key (NodeCache.entries c')
            = NodeCache.find_entry key (NodeCache.entries c))
  ∧ (∀ key, names_student estudianteId key = true →
            NodeCache.peek now key c' = None)
  ∧ (∀ asignatura periodo anio,
        names_student estudianteId
          (promedio_periodo_key estudianteId asignatura periodo anio) = true
        ∧ names_student estudianteId
            (promedio_asignatura_key estudianteId asignatura anio) = true).
Proof.
  cbv zeta. unfold invalidarCacheEstudiante. simpl optional. simpl truthy. cbv iota.
  destruct (del_rounds_snapshot now
              (fun tipo key => includes tipo key && includes estudianteId key)
              tiposRelacionados c) as (Hkeys & Hkept & Hgone).
  split; [exact Hkeys|]. split; [exact Hkept|]. split; [exact Hgone|].
  intros asignatura periodo anio. unfold names_student, tiposRelacionados.
  cbn [existsb]. split.
  - assert (includes "promedio_periodo"
              (promedio_periodo_key estudianteId asignatura periodo anio) = true) as ->
      by (apply startsWith_includes, startsWith_app).
    assert (includes estudianteId
              (promedio_periodo_key estudianteId asignatura periodo anio) = true) as ->
      by (apply (includes_between estudianteId "promedio_periodo_")).
    reflexivity.
  - assert (includes "promedio_asignatura"
              (promedio_asignatura_key estudianteId asignatura anio) = true) as ->
      by (apply startsWith_includes, startsWith_app).
    assert (includes estudianteId
              (promedio_asignatura_key estudianteId asignatura anio) = true) as ->
      by (apply (includes_between estudianteId "promedio_asignatura_")).
    rewrite orb_true_r. reflexivity.
Qed.

(** X17: [limpiarCacheAcademico] deletes the live keys that contain the name
    of one of the three academic types, and no other. Every key of a period
    average, of a subject average and of the statistics of a group is among
    them, for every student, course, subject, period and year. *)
Theorem limpiarCacheAcademico_scope now c :
  let c' := limpiarCacheAcademico now c in
  NodeCache.keys now c'
  = List.filter (fun key => negb (names_academic key)) (NodeCache.keys now c)
  ∧ (∀ key, names_academic key = false →
            NodeCache.find_entry key (NodeCache.entries c')
            = NodeCache.find_entry key (NodeCache.entries c))
  ∧ (∀ key, names_academic key = true → NodeCache.peek now key c' = None)
  ∧ (∀ a b p y,
        names_academic (promedio_periodo_key a b p y) = true
        ∧ names_academic (promedio_asignatura_key a b y) = true
        ∧ names_academic (estadisticas_grupo_key a b p y) = true).
Proof.
  cbv zeta. unfold limpiarCacheAcademico.
  destruct (del_rounds_snapshot now (fun tipo key => includes tipo key)
              tiposAcademicos c) as (Hkeys & Hkept & Hgone).
  split; [exact Hkeys|]. split; [exact Hkept|]. split; [exact Hgone|].
  intros a b p y. unfold names_academic, tiposAcademicos. cbn [existsb].
  split; [|split].
  - assert (includes "promedio_periodo" (promedio_periodo_key a b p y) = true) as ->
      by (apply startsWith_includes, startsWith_app).
    reflexivity.
  - assert (includes "promedio_asignatura" (promedio_asignatura_key a b y) = true) as ->
      by (apply startsWith_includes, startsWith_app).
    rewrite orb_true_r. reflexivity.
  - assert (includes "estadisticas_grupo" (estadisticas_grupo_key a b p y) = true) as ->
      by (apply startsWith_includes, startsWith_app).
    rewrite !orb_true_r. reflexivity.
Qed.

(** X18: [invalidarCacheCurso(cursoId)] deletes the live keys that contain
    the course id together with [estadisticas_grupo] or [dashboard], and no
    other. The statistics of the course are among them, for every subject,
    period and year. *)
Theorem invalidarCacheCurso_scope now cursoId escuela c :
  let c' := invalidarCacheCurso now cursoId escuela c in
  NodeCache.keys now c'
  = List.filter (fun key => negb (names_course cursoId key)) (NodeCache.keys now c)
  ∧ (∀ key, names_course cursoId key = false →
            NodeCache.find_entry key (NodeCache.entries c')
            = NodeCache.find_entry key (NodeCache.entries c))
  ∧ (∀ key, names_course cursoId key = true → NodeCache.peek now key c' = None)
  ∧ (∀ asignatura periodo anio,
        names_course cursoId (estadisticas_grupo_key cursoId asignatura periodo anio)
        = true).
Proof.
  cbv zeta. unfold invalidarCacheCurso.
  destruct (NodeCacheMore.del_selected now (names_course cursoId) c)
    as (Hkeys & Hkept & Hgone).
  split; [exact Hkeys|]. split; [exact Hkept|]. split; [exact Hgone|].
  intros asignatura periodo anio. unfold names_course.
  assert (includes "estadisticas_grupo"
            (estadisticas_grupo_key cursoId asignatura periodo anio) = true) as ->
    by (apply startsWith_includes, startsWith_app).
  apply (includes_between cursoId "estadisticas_grupo_").
Qed.

End AcademicServiceFacts.

(** ** [AcademicCacheHelper]: what a change of grades or of a course leaves *)

Module AcademicCacheHelperFacts.
Import AcademicService AcademicCacheHelper AcademicServiceFacts.

(** X19: [invalidateOnCalificacionChange] does not reach the averages it is
    called for. The period average and the subject average of the student
    in the subject keep their entries, and go on being served until they
    expire, whenever the school id and the subject id are different
    non-empty strings of one length and the course id does not occur in the
    keys. *)
Theorem invalidateOnCalificacionChange_keeps_promedios now estudianteId
    asignaturaId cursoId escuela periodo anio c :
  escuela ≠ EmptyString →
  String.length escuela = String.length asignaturaId →
  escuela ≠ asignaturaId →
  includes cursoId (promedio_periodo_key estudianteId asignaturaId periodo anio)
  = false →
  includes cursoId (promedio_asignatura_key estudianteId asignaturaId anio) = false →
  let c' := invalidateOnCalificacionChange now estudianteId asignaturaId cursoId
              escuela c in
  NodeCache.find_entry (promedio_periodo_key estudianteId asignaturaId periodo anio)
    (NodeCache.entries c')
  = NodeCache.find_entry (promedio_periodo_key estudianteId asignaturaId periodo anio)
      (NodeCache.entries c)
  ∧ NodeCache.find_entry (promedio_asignatura_key estudianteId asignaturaId anio)
      (NodeCache.entries c')
    = NodeCache.find_entry (promedio_asignatura_key estudianteId asignaturaId anio)
        (NodeCache.entries c).
Proof.
  intros Hgiven Hlen Hne Hperiodo Hasignatura. cbv zeta.
  unfold invalidateOnCalificacionChange, invalidateRelatedCache.
  destruct (invalidarCacheEstudiante_keeps_promedios now estudianteId asignaturaId
              escuela periodo anio c Hgiven Hlen Hne) as [Hp1 Ha1].
  cbv zeta in Hp1, Ha1.
  set (c1 := invalidarCacheEstudiante now estudianteId (Some asignaturaId)
               (Some escuela) c) in *.
  destruct (invalidarCacheCurso_scope now cursoId (Some escuela) c1)
    as (_ & Hkept2 & _).
  cbv zeta in Hkept2.
  set (c2 := invalidarCacheCurso now cursoId (Some escuela) c1) in *.
  destruct (invalidate_types_scope now estudianteId escuela
              ["dashboard"; "dashboard_rol"; "dashboard_completo";
               "metricas_avanzadas"] c2) as [_ Hkept3].
  cbv zeta in Hkept3. split.
  - rewrite Hkept3 by reflexivity. rewrite Hkept2; [exact Hp1|].
    unfold names_course. rewrite Hperiodo. apply andb_false_r.
  - rewrite Hkept3 by reflexivity. rewrite Hkept2; [exact Ha1|].
    unfold names_course. rewrite Hasignatura. apply andb_false_r.
Qed.

Lemma invalidateOnCalificacionChange_keeps_promedios_witness :
  let c := NodeCache.set 0 (promedio_periodo_key "e1" "a1" "1" "2024")
             (JObj "promedio") 300 (NodeCache.create NodeCache.cache_options) in
  NodeCache.find_entry (promedio_periodo_key "e1" "a1" "1" "2024")
    (NodeCache.entries (invalidateOnCalificacionChange 1 "e1" "a1" "k9" "s1" c))
  = NodeCache.find_entry (promedio_periodo_key "e1" "a1" "1" "2024")
      (NodeCache.entries c).
Proof.
  intros c.
  destruct (invalidateOnCalificacionChange_keeps_promedios 1 "e1" "a1" "k9" "s1"
              "1" "2024" c) as [Hperiodo _];
    [discriminate | reflexivity | discriminate | reflexivity | reflexivity |].
  exact Hperiodo.
Defined.

(** The dashboard key of an authenticated request, segment by segment. *)
Lemma dashboard_key_segments req u :
  user req = Some u →
  middleware_key "dashboard" req
  = "dashboard_" +:+ _id u +:+ String underscore (escuelaId u +:+ "_" +:+ query req).
Proof.
  intros Hu. unfold middleware_key. rewrite Hu. rewrite append_assoc. reflexivity.
Qed.

(** X20: [invalidateOnCursoChange] invalidates the dashboard types for the
    user id [all], which is matched as it is written. The dashboard entry of
    an actual user keeps its place whenever the course id does not occur in
    its key; the user id is free of the underscore and is none of [all],
    [rol] and [completo]. *)
Theorem invalidateOnCursoChange_keeps_dashboards now cursoId escuela req u c :
  user req = Some u →
  free_of underscore (_id u) = true →
  _id u ≠ "all" → _id u ≠ "rol" → _id u ≠ "completo" →
  includes cursoId (middleware_key "dashboard" req) = false →
  NodeCache.find_entry (middleware_key "dashboard" req)
    (NodeCache.entries (invalidateOnCursoChange now cursoId escuela c))
  = NodeCache.find_entry (middleware_key "dashboard" req) (NodeCache.entries c).
Proof.
  intros Hu Hfree Hall Hrol Hcompleto Hcurso.
  unfold invalidateOnCursoChange, invalidateRelatedCache.
  destruct (invalidarCacheCurso_scope now cursoId (Some escuela) c) as (_ & Hkept1 & _).
  cbv zeta in Hkept1.
  set (c1 := invalidarCacheCurso now cursoId (Some escuela) c) in *.
  destruct (invalidate_types_scope now "all" escuela
              ["dashboard"; "dashboard_rol"; "dashboard_completo"] c1) as [_ Hkept2].
  cbv zeta in Hkept2. rewrite Hkept2.
  - apply Hkept1. unfold names_course. rewrite Hcurso. apply andb_false_r.
  - rewrite (dashboard_key_segments req u Hu). unfold in_scope_of.
    cbn [existsb]. rewrite !orb_false_iff. repeat split; try reflexivity.
    + apply (dashboard_pattern_other_segment "all" escuela (_id u));
        [reflexivity | exact Hfree | congruence].
    + apply (dashboard_pattern_other_segment "rol" ("all_" +:+ escuela) (_id u));
        [reflexivity | exact Hfree | congruence].
    + apply (dashboard_pattern_other_segment "completo" ("all_" +:+ escuela) (_id u));
        [reflexivity | exact Hfree | congruence].
Qed.

Lemma invalidateOnCursoChange_keeps_dashboards_witness :
  let req := {| method := "GET";
                user := Some {| _id := "u1"; escuelaId := "s1"; tipo := "DOCENTE" |};
                query := "{}" |} in
  let c := NodeCache.set 0 "dashboard_u1_s1_{}" (JObj "stats") 180
             (NodeCache.create NodeCache.cache_options) in
  NodeCache.find_entry (middleware_key "dashboard" req)
    (NodeCache.entries (invalidateOnCursoChange 1 "k9" "s1" c))
  = NodeCache.find_entry (middleware_key "dashboard" req) (NodeCache.entries c).
Proof.
  intros req c.
  apply (invalidateOnCursoChange_keeps_dashboards 1 "k9" "s1" req
           {| _id := "u1"; escuelaId := "s1"; tipo := "DOCENTE" |} c);
    try reflexivity; discriminate.
Defined.

End AcademicCacheHelperFacts.

(** ** The invalidating middleware *)

Module DashboardCacheInvalidationFacts.
Import DashboardCacheInvalidation.

(** X21: the [res.json] of the invalidating middleware, on a body whose
    [success] is truthy and for an authenticated user: the next GET of the
    user on the dashboard route is not answered from the store; for an
    ADMIN, RECTOR or COORDINADOR neither is the next GET on the
    notifications route, while for any other user every notifications entry
    stays where it is. A falsy [success] leaves the store untouched. *)
Theorem invalidating_json_scope now later req u success c :
  user req = Some u →
  method req = "GET" →
  now ≤ later →
  (truthy success = true →
     fst (cacheMiddleware "dashboard" later req
            (invalidating_json now (Some u) success c))
     = Intercepted (middleware_key "dashboard" req) (ttl (config_for "dashboard"))
     ∧ (existsb (String.eqb (tipo u)) adminTypes = true →
          fst (cacheMiddleware "notificaciones" later req
                 (invalidating_json now (Some u) success c))
          = Intercepted (middleware_key "notificaciones" req)
              (ttl (config_for "notificaciones")))
     ∧ (existsb (String.eqb (tipo u)) adminTypes = false →
          ∀ other,
            NodeCache.find_entry (middleware_key "notificaciones" other)
              (NodeCache.entries (invalidating_json now (Some u) success c))
            = NodeCache.find_entry (middleware_key "notificaciones" other)
                (NodeCache.entries c)))
  ∧ (truthy success = false → invalidating_json now (Some u) success c = c).
Proof.
  intros Hu Hmethod Hlater. split.
  - intros Hsuccess. unfold invalidating_json. rewrite Hsuccess.
    assert (∀ types cacheType,
              In cacheType types →
              fst (cacheMiddleware cacheType later req
                     (fold_left
                        (fun c' t => invalidateCache now t (_id u) (escuelaId u) c')
                        types c))
              = Intercepted (middleware_key cacheType req) (ttl (config_for cacheType)))
      as Hmiss.
    { intros types cacheType Hin.
      assert (in_scope_of (_id u) (escuelaId u) types (middleware_key cacheType req)
              = true) as Hscope.
      { apply existsb_exists. exists cacheType. split; [exact Hin|].
        apply middleware_key_in_scope, Hu. }
      pose proof (invalidated_key_misses now later (_id u) (escuelaId u) types
                    (middleware_key cacheType req) c Hlater Hscope) as Hnone.
      revert Hnone. generalize (fold_left
        (fun c' t => invalidateCache now t (_id u) (escuelaId u) c') types c).
      intros c' Hnone. unfold cacheMiddleware. rewrite Hmethod. simpl.
      destruct (NodeCache.get later (middleware_key cacheType req) c') as [found c1].
      simpl in Hnone. subst found. reflexivity. }
    destruct (existsb (String.eqb (tipo u)) adminTypes) eqn:Hadmin.
    + split; [|split; [|discriminate]].
      * apply (Hmiss ["dashboard"; "mensajes"; "notificaciones"] "dashboard").
        left. reflexivity.
      * intros _.
        apply (Hmiss ["dashboard"; "mensajes"; "notificaciones"] "notificaciones").
        right. right. left. reflexivity.
    + split; [|split; [discriminate|]].
      * apply (Hmiss ["dashboard"] "dashboard"). left. reflexivity.
      * intros _ other.
        destruct (invalidateCache_scope now (_id u) (escuelaId u) "dashboard" c)
          as [_ Hkept].
        apply Hkept. reflexivity.
  - intros Hfalsy. unfold invalidating_json. rewrite Hfalsy. reflexivity.
Qed.

Lemma invalidating_json_scope_witness :
  let u := {| _id := "u1"; escuelaId := "s1"; tipo := "RECTOR" |} in
  let req := {| method := "GET"; user := Some u; query := "{}" |} in
  let c := NodeCache.set 0 "notificaciones_u1_s1_{}" (JObj "avisos") 60
             (NodeCache.create NodeCache.cache_options) in
  fst (cacheMiddleware "notificaciones" 1 req c) = ServedFromCache (JObj "avisos")
  ∧ fst (cacheMiddleware "notificaciones" 2 req
           (invalidating_json 1 (Some u) (JBool true) c))
    = Intercepted "notificaciones_u1_s1_{}" 60.
Proof.
  intros u req c. split; [reflexivity|].
  destruct (invalidating_json_scope 1 2 req u (JBool true) c) as [Hdone _];
    [reflexivity | reflexivity | lia |].
  destruct (Hdone eq_refl) as (_ & Hadmin & _).
  apply Hadmin. reflexivity.
Defined.

End DashboardCacheInvalidationFacts.

(** ** Invalidating twice *)

(** X22: [invalidateCache] is idempotent: a second call for the same type,
    user and school at the same time finds nothing left to delete and
    returns the store as the first call left it. *)
Theorem invalidateCache_idempotent now cacheType userId escuela c :
  invalidateCache now cacheType userId escuela
    (invalidateCache now cacheType userId escuela c)
  = invalidateCache now cacheType userId escuela c.
Proof.
  destruct (invalidateCache_scope now userId escuela cacheType c) as [Hkeys _].
  cbv zeta in Hkeys.
  unfold invalidateCache at 1. rewrite Hkeys, NodeCacheFacts.filter_twice.
  assert (List.filter
            (fun key =>
               negb (in_scope userId escuela cacheType key)
               && startsWith (invalidation_pattern cacheType userId escuela) key)
            (NodeCache.keys now c) = []) as ->; [|reflexivity].
  clear Hkeys.
  induction (NodeCache.keys now c) as [|key ks IH]; simpl; [reflexivity|].
  unfold in_scope at 1. rewrite <- invalidation_pattern_key.
  destruct (startsWith (invalidation_pattern cacheType userId escuela) key);
    simpl; exact IH.
Qed.

(** ** The close of a period *)

Module PeriodoCloseFacts.
Import AcademicService AcademicCacheHelper AcademicServiceFacts
       AcademicCacheHelperFacts.

(** Invalidation brings no key back. *)
Lemma invalidate_types_keeps_unreadable now userId escuela types key c :
  NodeCache.peek now key c = None →
  NodeCache.peek now key
    (fold_left (fun c' t => invalidateCache now t userId escuela c') types c)
  = None.
Proof.
  intros Hnone.
  destruct (in_scope_of userId escuela types key) eqn:Hscope.
  - rewrite <- NodeCacheMore.get_peek.
    apply invalidated_key_misses; [lia | exact Hscope].
  - destruct (invalidate_types_scope now userId escuela types c) as [_ Hkept].
    cbv zeta in Hkept. unfold NodeCache.peek in *.
    rewrite (Hkept key Hscope). exact Hnone.
Qed.

(** X23: [invalidateOnPeriodoClose] leaves no academic entry readable: every
    period average, subject average and group statistic is gone. Its
    dashboard invalidation, made for the user id [all], leaves the dashboard
    entry of an actual user where it is, the key naming no academic type and
    the user id being free of the underscore and none of [all], [rol] and
    [completo]. *)
Theorem invalidateOnPeriodoClose_scope now escuela c :
  (∀ a b p y,
      NodeCache.peek now (promedio_periodo_key a b p y)
        (invalidateOnPeriodoClose now escuela c) = None
      ∧ NodeCache.peek now (promedio_asignatura_key a b y)
          (invalidateOnPeriodoClose now escuela c) = None
      ∧ NodeCache.peek now (estadisticas_grupo_key a b p y)
          (invalidateOnPeriodoClose now escuela c) = None)
  ∧ (∀ req u,
        user req = Some u →
        free_of underscore (_id u) = true →
        _id u ≠ "all" → _id u ≠ "rol" → _id u ≠ "completo" →
        names_academic (middleware_key "dashboard" req) = false →
        NodeCache.find_entry (middleware_key "dashboard" req)
          (NodeCache.entries (invalidateOnPeriodoClose now escuela c))
        = NodeCache.find_entry (middleware_key "dashboard" req) (NodeCache.entries c)).
Proof.
  unfold invalidateOnPeriodoClose, invalidateRelatedCache.
  destruct (limpiarCacheAcademico_scope now c) as (_ & Hkept1 & Hgone & Hnames).
  cbv zeta in Hkept1, Hgone.
  set (c1 := limpiarCacheAcademico now c) in *. split.
  - intros a b p y. destruct (Hnames a b p y) as (Hp & Ha & He).
    split; [|split]; apply invalidate_types_keeps_unreadable, Hgone; assumption.
  - intros req u Hu Hfree Hall Hrol Hcompleto Hacademic.
    destruct (invalidate_types_scope now "all" escuela
                ["dashboard"; "dashboard_rol"; "dashboard_completo";
                 "metricas_avanzadas"] c1) as [_ Hkept2].
    cbv zeta in Hkept2. rewrite Hkept2; [exact (Hkept1 _ Hacademic)|].
    rewrite (dashboard_key_segments req u Hu). unfold in_scope_of.
    cbn [existsb]. rewrite !orb_false_iff. repeat split; try reflexivity.
    + apply (dashboard_pattern_other_segment "all" escuela (_id u));
        [reflexivity | exact Hfree | congruence].
    + apply (dashboard_pattern_other_segment "rol" ("all_" +:+ escuela) (_id u));
        [reflexivity | exact Hfree | congruence].
    + apply (dashboard_pattern_other_segment "completo" ("all_" +:+ escuela) (_id u));
        [reflexivity | exact Hfree | congruence].
Qed.

Lemma invalidateOnPeriodoClose_scope_witness :
  let req := {| method := "GET";
                user := Some {| _id := "u1"; escuelaId := "s1"; tipo := "DOCENTE" |};
                query := "{}" |} in
  let c := NodeCache.set 1 "dashboard_u1_s1_{}" (JObj "stats") 180
             (NodeCache.set 0 (promedio_periodo_key "e1" "a1" "1" "2024")
                (JObj "promedio") 300 (NodeCache.create NodeCache.cache_options)) in
  NodeCache.peek 2 (promedio_periodo_key "e1" "a1" "1" "2024")
    (invalidateOnPeriodoClose 2 "s1" c) = None
  ∧ NodeCache.find_entry (middleware_key "dashboard" req)
      (NodeCache.entries (invalidateOnPeriodoClose 2 "s1" c))
    = NodeCache.find_entry (middleware_key "dashboard" req) (NodeCache.entries c).
Proof.
  intros req c.
  destruct (invalidateOnPeriodoClose_scope 2 "s1" c) as [Hgone Hkept]. split.
  - destruct (Hgone "e1" "a1" "1" "2024") as [Hperiodo _]. exact Hperiodo.
  - apply (Hkept req {| _id := "u1"; escuelaId := "s1"; tipo := "DOCENTE" |});
      try reflexivity; discriminate.
Defined.

End PeriodoCloseFacts.
